(** * A shallow embedding of [streamlit_app.py]

    The portfolio tracker keeps its data in flat JSON files under
    [user_data/], hashes passwords with SHA-256, keeps the logged-in user in
    the Streamlit session, and asks an external quote source for prices.

    Modelling decisions, in the order of the file:

    - Python [str] values are [string]s (their UTF-8 bytes), so
      [password.encode()] is the list of the string's bytes.
    - [hashlib.sha256(..).hexdigest()] is SHA-256 as FIPS 180-4 defines it,
      on 32-bit words kept in [Z] with the wrap-around written out.
    - Python floats are the kernel's binary64 floats ([PrimFloat]).
    - A Python [dict] is an insertion-ordered association list ([dict]).
    - What [json.dump] writes and [json.load] reads back is a [json] value;
      the file system is a finite map from path strings to such documents.
      Paths are computed as the program computes them ([os.path.join]), so
      two usernames that give the same path string share a file. The
      operating system is left out: directories, permissions, name limits
      and the normalisation of paths are not modelled, [open(path, 'w')]
      succeeds at every path, and different path strings are different
      files. This is exact for usernames that are plain file names (no
      path separator) on a case-sensitive POSIX file system.
    - Effects (files, the clock, the Streamlit session, the diagnostics
      shown by [st.warning], the quote source) are threaded through a state
      and exception monad [M] over a [world].
    - The pages are modelled by what their buttons do: a handler takes the
      values of the widgets as arguments and returns what [st.success] or
      [st.error] shows. One session uses the program at a time; tables are
      given before pandas sorts them, and charts are not modelled. *)

From Stdlib Require Import ZArith Floats.PrimFloat Strings.Ascii Strings.String.
From stdpp Require Import gmap strings list.

Local Open Scope Z_scope.

(** ** SHA-256 ([hashlib.sha256]) *)

Module SHA256.

Definition w32 (x : Z) : Z := x mod 2 ^ 32.

Definition add32 (x y : Z) : Z := w32 (x + y).

Definition rotr (n x : Z) : Z :=
  Z.lor (Z.shiftr x n) (w32 (Z.shiftl x (32 - n))).

Definition Ch (x y z : Z) : Z :=
  Z.lxor (Z.land x y) (Z.land (w32 (Z.lnot x)) z).

Definition Maj (x y z : Z) : Z :=
  Z.lxor (Z.lxor (Z.land x y) (Z.land x z)) (Z.land y z).

Definition Sigma0 (x : Z) : Z :=
  Z.lxor (Z.lxor (rotr 2 x) (rotr 13 x)) (rotr 22 x).

Definition Sigma1 (x : Z) : Z :=
  Z.lxor (Z.lxor (rotr 6 x) (rotr 11 x)) (rotr 25 x).

Definition sigma0 (x : Z) : Z :=
  Z.lxor (Z.lxor (rotr 7 x) (rotr 18 x)) (Z.shiftr x 3).

Definition sigma1 (x : Z) : Z :=
  Z.lxor (Z.lxor (rotr 17 x) (rotr 19 x)) (Z.shiftr x 10).

(** The first 64 primes; the constants of the hash are the first 32 bits of
    the fractional parts of their square and cube roots. *)
Definition primes : list Z :=
  [2; 3; 5; 7; 11; 13; 17; 19; 23; 29; 31; 37; 41; 43; 47; 53;
   59; 61; 67; 71; 73; 79; 83; 89; 97; 101; 103; 107; 109; 113; 127; 131;
   137; 139; 149; 151; 157; 163; 167; 173; 179; 181; 191; 193; 197; 199;
   211; 223; 227; 229; 233; 239; 241; 251; 257; 263; 269; 271; 277; 281;
   283; 293; 307; 311].

(** Integer cube root, one bit at a time from bit [bits - 1] down. *)
Fixpoint icbrt_from (bits : nat) (n r : Z) : Z :=
  match bits with
  | O => r
  | S b =>
      let r' := r + 2 ^ Z.of_nat b in
      icbrt_from b n (if r' * r' * r' <=? n then r' else r)
  end.

Definition icbrt (n : Z) : Z := icbrt_from 40 n 0.

Definition K : list Z :=
  Eval vm_compute in map (fun p => w32 (icbrt (p * 2 ^ 96))) primes.

Definition H0 : list Z :=
  Eval vm_compute in map (fun p => w32 (Z.sqrt (p * 2 ^ 64))) (take 8 primes).

Record state : Type := State {
  sa : Z; sb : Z; sc : Z; sd : Z; se : Z; sf : Z; sg : Z; sh : Z
}.

Definition state_of_list (l : list Z) : state :=
  State (nth 0 l 0) (nth 1 l 0) (nth 2 l 0) (nth 3 l 0)
        (nth 4 l 0) (nth 5 l 0) (nth 6 l 0) (nth 7 l 0).

Definition state_words (s : state) : list Z :=
  [sa s; sb s; sc s; sd s; se s; sf s; sg s; sh s].

Definition round (s : state) (k w : Z) : state :=
  let t1 := add32 (add32 (add32 (add32 (sh s) (Sigma1 (se s)))
                                (Ch (se s) (sf s) (sg s))) k) w in
  let t2 := add32 (Sigma0 (sa s)) (Maj (sa s) (sb s) (sc s)) in
  State (add32 t1 t2) (sa s) (sb s) (sc s) (add32 (sd s) t1) (se s) (sf s) (sg s).

(** The 64 rounds of one block. [win] holds the sixteen message-schedule
    words W[t] .. W[t+15]; each round uses W[t] and extends the schedule. *)
Fixpoint rounds (ks : list Z) (win : list Z) (s : state) : state :=
  match ks with
  | [] => s
  | k :: ks' =>
      let w := nth 0 win 0 in
      let new := add32 (add32 (add32 (sigma1 (nth 14 win 0)) (nth 9 win 0))
                              (sigma0 (nth 1 win 0))) w in
      rounds ks' (tl win ++ [new]) (round s k w)
  end.

Definition add_state (s t : state) : state :=
  State (add32 (sa s) (sa t)) (add32 (sb s) (sb t)) (add32 (sc s) (sc t))
        (add32 (sd s) (sd t)) (add32 (se s) (se t)) (add32 (sf s) (sf t))
        (add32 (sg s) (sg t)) (add32 (sh s) (sh t)).

(** Big-endian words of a block of bytes. *)
Fixpoint words_of_bytes (bs : list Z) : list Z :=
  match bs with
  | b0 :: b1 :: b2 :: b3 :: rest =>
      (((b0 * 256 + b1) * 256 + b2) * 256 + b3) :: words_of_bytes rest
  | _ => []
  end.

Definition compress (s : state) (block : list Z) : state :=
  add_state s (rounds K (words_of_bytes block) s).

(** [n] bytes of [x], most significant first. *)
Fixpoint be_bytes (n : nat) (x : Z) : list Z :=
  match n with
  | O => []
  | S n' => be_bytes n' (x / 256) ++ [x mod 256]
  end.

Definition pad (msg : list Z) : list Z :=
  let len := Z.of_nat (length msg) in
  msg ++ [128] ++ repeat 0 (Z.to_nat ((55 - len) mod 64)) ++ be_bytes 8 (8 * len).

(** Compress the padded message block by block; [blocks] bounds the number
    of 64-byte blocks. *)
Fixpoint absorb (blocks : nat) (bs : list Z) (s : state) : state :=
  match blocks with
  | O => s
  | S n =>
      match bs with
      | [] => s
      | _ => absorb n (drop 64 bs) (compress s (take 64 bs))
      end
  end.

Definition digest (msg : list Z) : state :=
  let padded := pad msg in
  absorb (length padded) padded (state_of_list H0).

Definition hex_digit (d : Z) : ascii :=
  nth (Z.to_nat d) (list_ascii_of_string "0123456789abcdef") "0"%char.

(** [n] lowercase hexadecimal digits of [x], most significant first. *)
Fixpoint hex (n : nat) (x : Z) : string :=
  match n with
  | O => EmptyString
  | S n' => hex n' (x / 16) +:+ String (hex_digit (x mod 16)) EmptyString
  end.

Definition hexdigest (s : state) : string :=
  foldr (fun w acc => hex 8 w +:+ acc) EmptyString (state_words s).

End SHA256.

(** [password.encode()]: the bytes of the string. *)
Definition encode (s : string) : list Z :=
  map (fun c => Z.of_N (N_of_ascii c)) (list_ascii_of_string s).

(** [hash_password] (lines 43-45). *)
Definition hash_password (password : string) : string :=
  SHA256.hexdigest (SHA256.digest (encode password)).

(** ** Python dictionaries

    A [dict] keeps its keys in insertion order; assigning to a key that is
    present replaces the value in place, assigning to a new key appends. *)

Definition dict (V : Type) : Type := list (string * V).

Fixpoint dict_get {V : Type} (k : string) (d : dict V) : option V :=
  match d with
  | [] => None
  | (k', v) :: d' => if String.eqb k' k then Some v else dict_get k d'
  end.

(** [k in d] *)
Definition dict_mem {V : Type} (k : string) (d : dict V) : bool :=
  match dict_get k d with Some _ => true | None => false end.

(** [d[k] = v] *)
Fixpoint dict_set {V : Type} (k : string) (v : V) (d : dict V) : dict V :=
  match d with
  | [] => [(k, v)]
  | (k', v') :: d' =>
      if String.eqb k' k then (k', v) :: d' else (k', v') :: dict_set k v d'
  end.

Definition dict_keys {V : Type} (d : dict V) : list string := map fst d.

(** The invariant of every Python dictionary: no key occurs twice. *)
Definition dict_wf {V : Type} (d : dict V) : Prop := NoDup (dict_keys d).

(** ** JSON documents: what [json.dump] writes and [json.load] returns *)

Inductive json : Type :=
  | JNull
  | JBool (b : bool)
  | JInt (z : Z)
  | JFloat (x : float)
  | JStr (s : string)
  | JArr (l : list json)
  | JObj (o : dict json).

(** [v == s] for a string [s]: only an equal string is equal to it. *)
Definition json_eq_str (v : json) (s : string) : bool :=
  match v with
  | JStr t => String.eqb t s
  | _ => false
  end.

(** A holdings (or price) mapping, symbol to amount, as a JSON object. *)
Definition json_of_holdings (h : dict float) : json :=
  JObj (map (fun kv => (fst kv, JFloat (snd kv))) h).

(** ** The world and the monad of effects *)

(** Exceptions the modelled code can meet, all of them subclasses of
    Python's [Exception] (what [except Exception] catches; interrupts and
    exits are outside the model). [SourceError] is whatever the quote
    source raises. *)
Inductive exn : Type :=
  | TypeError
  | AttributeError
  | KeyError
  | IndexError
  | FileNotFoundError
  | SourceError (msg : string).

(** [st.session_state] once [init_session_state] has run. *)
Record session_state : Type := Session {
  ss_authenticated : bool;
  ss_username : string;
  ss_portfolio : json;
  ss_last_updated : json
}.

(** What [yf.Ticker(ticker).history(period="1d")] does: raise, or return a
    frame, given here by the values of its [Close] column, oldest first. *)
Inductive response : Type :=
  | Fails (msg : string)
  | Frame (closes : list float).

Record world : Type := World {
  files : gmap string json;          (* path -> document *)
  clock : nat -> string;             (* the n-th reading of datetime.now(), formatted *)
  ticks : nat;                       (* readings taken so far *)
  source : nat -> string -> response; (* the answer to the n-th request, by ticker *)
  requests : nat;                    (* requests made so far *)
  session : session_state;
  warnings : list string             (* messages shown by st.warning, oldest first *)
}.

Inductive outcome (A : Type) : Type :=
  | Returns (a : A) (w : world)
  | Raises (e : exn) (w : world).
Arguments Returns {A} a w.
Arguments Raises {A} e w.

Definition M (A : Type) : Type := world -> outcome A.

#[global] Instance M_ret : MRet M := fun A a w => Returns a w.

#[global] Instance M_bind : MBind M := fun A B f m w =>
  match m w with
  | Returns a w' => f a w'
  | Raises e w' => Raises e w'
  end.

Definition raise {A : Type} (e : exn) : M A := fun w => Raises e w.

(** [try: body except Exception as e: handler e] *)
Definition try_except {A : Type} (body : M A) (handler : exn -> M A) : M A :=
  fun w =>
    match body w with
    | Returns a w' => Returns a w'
    | Raises e w' => handler e w'
    end.

Definition set_files (f : gmap string json) (w : world) : world :=
  World f (clock w) (ticks w) (source w) (requests w) (session w) (warnings w).

Definition set_session (s : session_state) (w : world) : world :=
  World (files w) (clock w) (ticks w) (source w) (requests w) s (warnings w).

(** [os.path.exists(path)] *)
Definition path_exists (path : string) : M bool := fun w =>
  Returns (match files w !! path with Some _ => true | None => false end) w.

(** [with open(path, 'r') as f: json.load(f)] *)
Definition read_json (path : string) : M json := fun w =>
  match files w !! path with
  | Some doc => Returns doc w
  | None => Raises FileNotFoundError w
  end.

(** [with open(path, 'w') as f: json.dump(doc, f)] *)
Definition write_json (path : string) (doc : json) : M unit := fun w =>
  Returns tt (set_files (<[path := doc]> (files w)) w).

(** [datetime.now().strftime("%Y-%m-%d %H:%M:%S")] *)
Definition datetime_now : M string := fun w =>
  Returns (clock w (ticks w))
          (World (files w) (clock w) (S (ticks w)) (source w) (requests w)
                 (session w) (warnings w)).

(** [st.warning(msg)] *)
Definition st_warning (msg : string) : M unit := fun w =>
  Returns tt (World (files w) (clock w) (ticks w) (source w) (requests w)
                    (session w) (warnings w ++ [msg])).

(** [yf.Ticker(ticker).history(period="1d")] *)
Definition yf_history (ticker : string) : M (list float) := fun w =>
  let w' := World (files w) (clock w) (ticks w) (source w) (S (requests w))
                  (session w) (warnings w) in
  match source w (requests w) ticker with
  | Fails msg => Raises (SourceError msg) w'
  | Frame closes => Returns closes w'
  end.

Definition get_session : M session_state := fun w => Returns (session w) w.

Definition put_session (s : session_state) : M unit := fun w =>
  Returns tt (set_session s w).

(** Assignments to the attributes of [st.session_state]. *)
Definition set_authenticated (b : bool) : M unit :=
  s ← get_session;
  put_session (Session b (ss_username s) (ss_portfolio s) (ss_last_updated s)).

Definition set_username (u : string) : M unit :=
  s ← get_session;
  put_session (Session (ss_authenticated s) u (ss_portfolio s) (ss_last_updated s)).

Definition set_portfolio (p : json) : M unit :=
  s ← get_session;
  put_session (Session (ss_authenticated s) (ss_username s) p (ss_last_updated s)).

Definition set_last_updated (t : json) : M unit :=
  s ← get_session;
  put_session (Session (ss_authenticated s) (ss_username s) (ss_portfolio s) t).

(** [time.sleep(0.5)]: real time is not part of the world. *)
Definition time_sleep : M unit := mret tt.

(** ** Paths *)

Definition DATA_DIR : string := "user_data".

(** [s.startswith(p)] *)
Fixpoint starts_with (p s : string) : bool :=
  match p, s with
  | EmptyString, _ => true
  | String _ _, EmptyString => false
  | String a p', String b s' => Ascii.eqb a b && starts_with p' s'
  end.

(** [s.endswith(suffix)] *)
Definition ends_with (suffix s : string) : bool :=
  starts_with (String.rev suffix) (String.rev s).

(** [os.path.join(a, b)] (posixpath) *)
Definition path_join (a b : string) : string :=
  if starts_with "/" b then b
  else if String.eqb a "" || ends_with "/" a then a +:+ b
  else a +:+ "/" +:+ b.

(** [os.path.join(DATA_DIR, f"{username}.json")] *)
Definition portfolio_path (username : string) : string :=
  path_join DATA_DIR (username +:+ ".json").

(** [os.path.join(DATA_DIR, "users.json")] *)
Definition users_file : string := path_join DATA_DIR "users.json".

(** ** Operations of Python on loaded JSON values *)

(** [data.get(key, default)]: only a dict has [get]. *)
Definition json_get (data : json) (key : string) (default : json) : M json :=
  match data with
  | JObj o => mret (match dict_get key o with Some v => v | None => default end)
  | _ => raise AttributeError
  end.

(** [users[key] = value]: a list takes integer indices only, the other
    values take no item assignment. *)
Definition json_setitem (users : json) (key : string) (value : json) : M json :=
  match users with
  | JObj o => mret (JObj (dict_set key value o))
  | _ => raise TypeError
  end.

(** [key in users] for a string [key]: key membership in a dict, element
    membership in a list, substring test in a string. *)
Definition json_contains (users : json) (key : string) : M bool :=
  match users with
  | JObj o => mret (dict_mem key o)
  | JArr l => mret (existsb (fun v => json_eq_str v key) l)
  | JStr s => mret (match String.index 0 key s with Some _ => true | None => false end)
  | _ => raise TypeError
  end.

(** [users[key]] for a string [key]. *)
Definition json_getitem (users : json) (key : string) : M json :=
  match users with
  | JObj o => match dict_get key o with Some v => mret v | None => raise KeyError end
  | _ => raise TypeError
  end.

(** ** PortfolioStore and CredentialStore *)

(** [save_user_portfolio] (lines 47-60). The dictionary literal reads the
    clock before the file is opened. *)
Definition save_user_portfolio (username : string) (portfolio : json) : M bool :=
  let file_path := portfolio_path username in
  now ← datetime_now;
  let data_to_save :=
    JObj [("portfolio"%string, portfolio); ("last_updated"%string, JStr now)] in
  write_json file_path data_to_save;;
  mret true.

(** [load_user_portfolio] (lines 62-71). *)
Definition load_user_portfolio (username : string) : M (json * json) :=
  let file_path := portfolio_path username in
  found ← path_exists file_path;
  if found : bool then
    data ← read_json file_path;
    p ← json_get data "portfolio" (JObj []);
    t ← json_get data "last_updated" (JStr "");
    mret (p, t)
  else mret (JObj [], JStr "").

(** [user_exists] (lines 73-75). *)
Definition user_exists (username : string) : M bool :=
  path_exists (portfolio_path username).

(** [save_user_credentials] (lines 77-90). *)
Definition save_user_credentials (username password_hash : string) : M unit :=
  found ← path_exists users_file;
  users ← (if found : bool then read_json users_file else mret (JObj []));
  users' ← json_setitem users username (JStr password_hash);
  write_json users_file users'.

(** [check_credentials] (lines 92-102). *)
Definition check_credentials (username password_hash : string) : M bool :=
  found ← path_exists users_file;
  if negb found then mret false
  else
    users ← read_json users_file;
    known ← json_contains users username;
    if known : bool then
      stored ← json_getitem users username;
      mret (json_eq_str stored password_hash)
    else mret false.

(** ** SessionController *)

(** The session [init_session_state] (lines 105-113) sets up. *)
Definition anonymous : session_state := Session false "" (JObj []) (JStr "").

(** [login_user] (lines 115-125). *)
Definition login_user (username password : string) : M bool :=
  let password_hash := hash_password password in
  ok ← check_credentials username password_hash;
  if ok : bool then
    set_authenticated true;;
    set_username username;;
    loaded ← load_user_portfolio username;
    set_portfolio (fst loaded);;
    set_last_updated (snd loaded);;
    mret true
  else mret false.

(** [register_user] (lines 127-135). *)
Definition register_user (username password : string) : M bool :=
  taken ← user_exists username;
  if taken : bool then mret false
  else
    let password_hash := hash_password password in
    save_user_credentials username password_hash;;
    save_user_portfolio username (JObj []);;
    mret true.

(** [logout_user] (lines 137-141). *)
Definition logout_user : M unit := put_session anonymous.

(** The body of the "Save Changes" branch of [show_portfolio_page] (lines
    225-230); [edited_portfolio] holds the amounts of the number inputs. *)
Definition update_portfolio (edited_portfolio : dict float) : M unit :=
  let edited_portfolio :=
    List.filter (fun kv => PrimFloat.ltb 0 (snd kv)) edited_portfolio in
  s ← get_session;
  save_user_portfolio (ss_username s) (json_of_holdings edited_portfolio);;
  set_portfolio (json_of_holdings edited_portfolio);;
  now ← datetime_now;
  set_last_updated (JStr now).

(** ** Valuation (lines 238-250 of [show_portfolio_page]) *)

(** Line 238. *)
Definition portfolio_for_display (portfolio crypto_prices : dict float) : dict float :=
  List.filter (fun kv => dict_mem (fst kv) crypto_prices) portfolio.

(** [d.get(k, 0)] on a dictionary of floats. *)
Definition get_or_zero (k : string) (d : dict float) : float :=
  match dict_get k d with Some v => v | None => 0%float end.

(** [sum(xs)]: the items added one after the other, starting from 0. The
    items are products with a price read from a data frame (NumPy doubles),
    so each step is one binary64 addition. *)
Definition py_sum (xs : list float) : float :=
  fold_left PrimFloat.add xs 0%float.

(** Line 239. *)
Definition total_value (portfolio crypto_prices : dict float) : float :=
  let pfd := portfolio_for_display portfolio crypto_prices in
  py_sum (map (fun coin => PrimFloat.mul (get_or_zero coin pfd)
                                         (get_or_zero coin crypto_prices))
              (dict_keys pfd)).

(** A row of the table: coin, amount, price, value. *)
Record row : Type := Row {
  row_coin : string;
  row_amount : float;
  row_price : float;
  row_value : float
}.

(** The data frame of lines 245-250, before it is sorted for display; it is
    built only when [portfolio_for_display] is not empty. *)
Definition portfolio_data (portfolio crypto_prices : dict float) : list row :=
  let pfd := portfolio_for_display portfolio crypto_prices in
  map (fun coin =>
         Row coin (get_or_zero coin pfd) (get_or_zero coin crypto_prices)
             (PrimFloat.mul (get_or_zero coin pfd) (get_or_zero coin crypto_prices)))
      (dict_keys pfd).

(** ** PriceFetcher *)

(** [ticker.split('-')[0]]: the part of the string before its first hyphen. *)
Fixpoint split_head (s : string) : string :=
  match s with
  | EmptyString => EmptyString
  | String c s' => if Ascii.eqb c "-" then EmptyString else String c (split_head s')
  end.

(** [hist.empty] *)
Definition frame_empty (hist : list float) : bool :=
  match hist with [] => true | _ => false end.

(** [hist.iloc[-1]['Close']] *)
Definition iloc_last_close (hist : list float) : M float :=
  match last hist with
  | Some price => mret price
  | None => raise IndexError
  end.

(** [str(e)] *)
Definition str_of_exn (e : exn) : string :=
  match e with
  | TypeError => "TypeError"
  | AttributeError => "AttributeError"
  | KeyError => "KeyError"
  | IndexError => "single positional indexer is out-of-bounds"
  | FileNotFoundError => "FileNotFoundError"
  | SourceError msg => msg
  end.

(** The body of the loop of [get_crypto_data] (lines 24-39) for one ticker;
    [data] is the dictionary built so far. *)
Definition fetch_ticker (ticker : string) (data : dict float) : M (dict float) :=
  try_except
    (hist ← yf_history ticker;
     data' ← (if negb (frame_empty hist) then
                price ← iloc_last_close hist;
                let symbol := split_head ticker in
                mret (dict_set symbol price data)
              else
                st_warning ("No data available for " +:+ ticker);;
                mret data);
     time_sleep;;
     mret data')
    (fun e =>
       st_warning ("Failed to get data for " +:+ ticker +:+ ": " +:+ str_of_exn e);;
       mret data).

Fixpoint fetch_all (tickers : list string) (data : dict float) : M (dict float) :=
  match tickers with
  | [] => mret data
  | ticker :: rest =>
      data' ← fetch_ticker ticker data;
      fetch_all rest data'
  end.

(** [get_crypto_data] (lines 18-41). *)
Definition get_crypto_data (symbols : list string) : M (dict float) :=
  let crypto_tickers := map (fun symbol => symbol +:+ "-USD") symbols in
  fetch_all crypto_tickers [].

(** ** Session set-up and the pages *)

(** [st.session_state] as a script run finds it: each key may be missing. *)
Record session_keys : Type := SessionKeys {
  key_authenticated : option bool;
  key_username : option string;
  key_portfolio : option json;
  key_last_updated : option json
}.

(** [init_session_state] (lines 105-113): a key that is missing gets its
    default. *)
Definition init_session_state (st : session_keys) : session_keys :=
  let st := match key_authenticated st with
            | None => SessionKeys (Some false) (key_username st)
                                  (key_portfolio st) (key_last_updated st)
            | Some _ => st
            end in
  let st := match key_username st with
            | None => SessionKeys (key_authenticated st) (Some ""%string)
                                  (key_portfolio st) (key_last_updated st)
            | Some _ => st
            end in
  let st := match key_portfolio st with
            | None => SessionKeys (key_authenticated st) (key_username st)
                                  (Some (JObj [])) (key_last_updated st)
            | Some _ => st
            end in
  match key_last_updated st with
  | None => SessionKeys (key_authenticated st) (key_username st)
                        (key_portfolio st) (Some (JStr ""))
  | Some _ => st
  end.

(** The session the functions of the controller work on, when every key is
    there. *)
Definition session_of_keys (st : session_keys) : option session_state :=
  match key_authenticated st, key_username st, key_portfolio st,
        key_last_updated st with
  | Some a, Some u, Some p, Some t => Some (Session a u p t)
  | _, _, _, _ => None
  end.

Inductive page : Type :=
  | LoginPage
  | PortfolioPage.

(** The page [main] shows (lines 150-153). *)
Definition main_page (s : session_state) : page :=
  if negb (ss_authenticated s) then LoginPage else PortfolioPage.

(** What [st.success] or [st.error] shows after a button is pressed. *)
Inductive feedback : Type :=
  | Success (msg : string)
  | Error (msg : string).


(** The "Register" button of [show_login_page] (lines 176-185). *)
Definition register_clicked (new_username new_password confirm_password : string)
  : M feedback :=
  if negb (String.eqb new_password confirm_password) then
    mret (Error "Passwords do not match")
  else if String.eqb new_username "" || String.eqb new_password "" then
    mret (Error "Username and password cannot be empty")
  else
    ok ← register_user new_username new_password;
    if ok : bool then mret (Success "Registration successful! You can now login.")
    else mret (Error "User with this username already exists").

(** Line 194. *)
Definition default_coins : list string :=
  ["BTC"; "ETH"; "BNB"; "ADA"; "SOL"; "XRP"; "DOT"; "DOGE"; "LTC"; "TON11419";
   "AVAX"; "SUI20947"; "ARB11841"]%string.

(** [coin in coins] for a list of strings. *)
Definition list_mem (coin : string) (coins : list string) : bool :=
  existsb (String.eqb coin) coins.

(** The coins the multiselect offers as selected (line 209): the held coins
    that are default coins or, when there is none, BTC and ETH. *)
Definition default_selection (portfolio : dict float) : list string :=
  match List.filter (fun coin => list_mem coin default_coins) (dict_keys portfolio) with
  | [] => ["BTC"; "ETH"]%string
  | held => held
  end.



(** What lines 244-276 put under the total: the table (its rows are given
    here before they are sorted by value) with or without the two charts,
    or the note that the portfolio is empty. *)
Inductive view : Type :=
  | Table (rows : list row) (charts : bool)
  | EmptyNote.

Definition portfolio_view (portfolio crypto_prices : dict float) : view :=
  match portfolio_for_display portfolio crypto_prices with
  | [] => EmptyNote
  | _ :: _ =>
      Table (portfolio_data portfolio crypto_prices)
            (PrimFloat.ltb 0 (total_value portfolio crypto_prices))
  end.

(** ** Vocabulary of the properties *)

(** The entries of the credential record on disk (none when there is no
    credential file). *)
Definition credentials (w : world) : dict json :=
  match files w !! users_file with
  | Some (JObj o) => o
  | _ => []
  end.

(** The digest stored for a username, if any. *)
Definition stored_digest (w : world) (username : string) : option json :=
  dict_get username (credentials w).

(** The credential file, when there is one, holds a JSON object. *)
Definition credentials_ok (w : world) : Prop :=
  match files w !! users_file with
  | None | Some (JObj _) => True
  | Some _ => False
  end.

Definition is_hex_char (c : ascii) : bool :=
  existsb (Ascii.eqb c) (list_ascii_of_string "0123456789abcdef").

(** Every character of the string is a lowercase hexadecimal digit. *)
Definition is_hex (s : string) : bool :=
  forallb is_hex_char (list_ascii_of_string s).

(** The world after [save_user_portfolio username portfolio]. *)
Definition saved (username : string) (portfolio : json) (w : world) : world :=
  World (<[portfolio_path username :=
             JObj [("portfolio"%string, portfolio);
                   ("last_updated"%string, JStr (clock w (ticks w)))]]> (files w))
        (clock w) (S (ticks w)) (source w) (requests w) (session w) (warnings w).

(** The world after [save_user_credentials username password_hash], when the
    credential file is absent or holds an object. *)
Definition credited (username password_hash : string) (w : world) : world :=
  set_files (<[users_file := JObj (dict_set username (JStr password_hash)
                                            (credentials w))]> (files w)) w.

(** A world with nothing on disk and nobody logged in. *)
Definition fresh_world (clock : nat -> string) (source : nat -> string -> response)
  : world :=
  World ∅ clock 0 source 0 anonymous [].

(** The valuation as the specification words it: for each held symbol
    present in the prices, amount times price, in the order of the holdings;
    symbols without a known price are left out. *)
Fixpoint valuation_spec (holdings prices : dict float) : list (string * float) :=
  match holdings with
  | [] => []
  | (symbol, amount) :: rest =>
      match dict_get symbol prices with
      | Some price => (symbol, PrimFloat.mul amount price) :: valuation_spec rest prices
      | None => valuation_spec rest prices
      end
  end.

#[global] Instance dict_wf_dec {V : Type} (d : dict V) : Decision (dict_wf d).
Proof. unfold dict_wf. apply _. Defined.

(** The symbol contains no hyphen. *)
Definition hyphen_free (symbol : string) : bool :=
  negb (existsb (fun c => Ascii.eqb c "-") (list_ascii_of_string symbol)).

(** What the quote source says of a symbol at the [n]-th request: its
    latest close, or nothing when the request fails or has no data. *)
Definition latest_close (w : world) (n : nat) (symbol : string) : option float :=
  match source w n (symbol +:+ "-USD") with
  | Frame closes => last closes
  | Fails _ => None
  end.

(** The world after one request to the quote source that showed the
    diagnostics [msgs]. *)
Definition requested (msgs : list string) (w : world) : world :=
  World (files w) (clock w) (ticks w) (source w) (S (requests w)) (session w)
        (warnings w ++ msgs).

(** Every file on disk holds a JSON object, as every file the program
    writes does. *)
Definition store_ok (w : world) : Prop :=
  forall path doc, files w !! path = Some doc -> exists o, doc = JObj o.

(** What a user can make the program do. *)
Inductive action : Type :=
  | Login (username password : string)
  | Register (username password : string)
  | Logout
  | Update (edited_portfolio : dict float)
  | Fetch (symbols : list string).

Definition perform (a : action) : M unit :=
  match a with
  | Login u p => login_user u p;; mret tt
  | Register u p => register_user u p;; mret tt
  | Logout => logout_user
  | Update edits => update_portfolio edits
  | Fetch symbols => get_crypto_data symbols;; mret tt
  end.

(** The worlds the program can be in: it starts on an empty data directory
    and performs one action after the other. *)
Inductive reachable : world -> Prop :=
  | reachable_fresh (c : nat -> string) (s : nat -> string -> response) :
      reachable (fresh_world c s)
  | reachable_returns (a : action) (w w' : world) :
      reachable w -> perform a w = Returns tt w' -> reachable w'
  | reachable_raises (a : action) (e : exn) (w w' : world) :
      reachable w -> perform a w = Raises e w' -> reachable w'.





(** The number of requests, from the [n]-th on, one per symbol, that bring
    no close. *)
Fixpoint missing_closes (w : world) (n : nat) (symbols : list string) : nat :=
  match symbols with
  | [] => 0%nat
  | symbol :: rest =>
      match latest_close w n symbol with
      | Some _ => missing_closes w (S n) rest
      | None => S (missing_closes w (S n) rest)
      end
  end.

(** A clock and a quote source for the examples: the clock always reads
    the same second, the source knows [BTC-USD] only. *)
Definition example_clock : nat -> string := fun _ => "2024-01-01 00:00:00"%string.

Definition example_source : nat -> string -> response := fun _ ticker =>
  if String.eqb ticker "BTC-USD" then Frame [100%float]
  else Fails "no such ticker".

Definition example_world : world := fresh_world example_clock example_source.

(** A world with a credential file that holds a list, and a world where the
    portfolio record of bob holds a list: files no run of the program
    writes. *)
Definition example_bad_credentials : world :=
  set_files (<[users_file := JArr [JStr "bob"]]> ∅) example_world.

Definition example_bad_record : world :=
  set_files (<[portfolio_path "bob" := JArr []]>
               (files (credited "bob" (hash_password "pw") example_world)))
            example_world.

(** The world an outcome leaves. *)
Definition world_after {A : Type} (o : outcome A) : world :=
  match o with
  | Returns _ w => w
  | Raises _ w => w
  end.

(** The world after a list of actions, one after the other. *)
Fixpoint run_actions (actions : list action) (w : world) : world :=
  match actions with
  | [] => w
  | a :: rest => run_actions rest (world_after (perform a w))
  end.

(** bob registers, logs in and saves a portfolio; alice registers. *)
Definition example_session_world : world :=
  run_actions [Register "bob" "pw"; Login "bob" "pw";
               Update [("BTC"%string, 0%float); ("ETH"%string, 3%float)];
               Register "alice" "secret"] example_world.

(** ** Proof automation *)

#[local] Arguments portfolio_path : simpl never.
#[local] Arguments users_file : simpl never.
#[local] Arguments hash_password : simpl never.

(** Unfold the monad and the primitive effects. *)
Ltac run :=
  unfold set_authenticated, set_username, set_portfolio, set_last_updated,
    time_sleep;
  unfold mbind, M_bind, mret, M_ret, raise, path_exists, read_json, write_json,
    datetime_now, st_warning, get_session, put_session, set_files, set_session;
  cbn -[lookup insert].

(** * Properties *)

(** ** Strings and paths *)

Lemma length_append (s t : string) :
  String.length (s +:+ t) = (String.length s + String.length t)%nat.
Proof. induction s as [|c s IH]; simpl; [reflexivity | now rewrite IH]. Qed.

Lemma append_inj_r (s1 s2 t : string) : s1 +:+ t = s2 +:+ t -> s1 = s2.
Proof.
  revert s2. induction s1 as [|c s1 IH]; intros [|c2 s2] H; simpl in H.
  - reflexivity.
  - apply (f_equal String.length) in H. rewrite !length_append in H. simpl in H. lia.
  - apply (f_equal String.length) in H. rewrite !length_append in H. simpl in H. lia.
  - injection H as -> H. f_equal. now apply IH.
Qed.

Lemma path_join_data_dir (b : string) :
  path_join DATA_DIR b = if starts_with "/" b then b else "user_data/" +:+ b.
Proof. unfold path_join. destruct (starts_with "/" b); reflexivity. Qed.

Lemma portfolio_path_users (u : string) :
  portfolio_path u = users_file <-> u = "users"%string.
Proof.
  split; [|intros ->; reflexivity].
  unfold portfolio_path, users_file. rewrite !path_join_data_dir.
  destruct (starts_with "/" (u +:+ ".json")) eqn:E; cbn.
  - intros H. rewrite H in E. discriminate E.
  - intros H. injection H as H.
    now apply (append_inj_r u "users" ".json").
Qed.


(** ** The monad *)

Lemma bind_returns {A B : Type} (m : M A) (f : A -> M B) (w w' : world) (a : A) :
  m w = Returns a w' -> (m ≫= f) w = f a w'.
Proof. intros H. unfold mbind, M_bind. now rewrite H. Qed.

Lemma bind_raises {A B : Type} (m : M A) (f : A -> M B) (w w' : world) (e : exn) :
  m w = Raises e w' -> (m ≫= f) w = Raises e w'.
Proof. intros H. unfold mbind, M_bind. now rewrite H. Qed.

(** ** PortfolioStore *)

Lemma save_user_portfolio_run (u : string) (H : json) (w : world) :
  save_user_portfolio u H w = Returns true (saved u H w).
Proof. reflexivity. Qed.

Lemma load_user_portfolio_saved (u : string) (H : json) (w : world) :
  load_user_portfolio u (saved u H w)
  = Returns (H, JStr (clock w (ticks w))) (saved u H w).
Proof.
  unfold load_user_portfolio, saved. run.
  rewrite lookup_insert_eq. run. rewrite lookup_insert_eq. reflexivity.
Qed.

(** C7. For every username with no portfolio record on disk,
    [load_user_portfolio] returns the empty holdings mapping and the empty
    timestamp string; it raises nothing and leaves the world as it is. *)
Theorem load_missing (u : string) (w : world) :
  files w !! portfolio_path u = None ->
  load_user_portfolio u w = Returns (JObj [], JStr "") w.
Proof.
  intros Hnone. unfold load_user_portfolio. run. now rewrite Hnone.
Qed.

Lemma load_missing_witness :
  files example_world !! portfolio_path "alice" = None
  /\ load_user_portfolio "alice" example_world
     = Returns (JObj [], JStr "") example_world.
Proof.
  assert (Hnone : files example_world !! portfolio_path "alice" = None)
    by (vm_compute; reflexivity).
  split; [exact Hnone | exact (load_missing "alice" example_world Hnone)].
Defined.


Example save_load_alice (w : world) :
  exists w',
    save_user_portfolio "alice" (json_of_holdings [("BTC"%string, 1.5%float)]) w
    = Returns true w'
    /\ load_user_portfolio "alice" w'
       = Returns (JObj [("BTC"%string, JFloat 1.5)], JStr (clock w (ticks w))) w'.
Proof.
  eexists. split; [apply save_user_portfolio_run|].
  apply (load_user_portfolio_saved "alice" (JObj [("BTC"%string, JFloat 1.5)]) w).
Qed.

(** ** Dictionaries *)

Section DictLemmas.
Context {V : Type}.
Implicit Types (d : dict V) (k : string) (v : V).

Lemma dict_get_set_eq k v d : dict_get k (dict_set k v d) = Some v.
Proof.
  induction d as [|[k' v'] d IH]; simpl.
  - now rewrite String.eqb_refl.
  - destruct (String.eqb k' k) eqn:E; simpl; rewrite E; [reflexivity | exact IH].
Qed.

Lemma dict_get_set_ne k k' v d :
  k' <> k -> dict_get k' (dict_set k v d) = dict_get k' d.
Proof.
  intros Hne. induction d as [|[k0 v0] d IH]; simpl.
  - destruct (String.eqb_spec k k'); [congruence | reflexivity].
  - destruct (String.eqb_spec k0 k) as [->|Hk]; simpl.
    + destruct (String.eqb_spec k k'); [congruence | reflexivity].
    + destruct (String.eqb k0 k'); [reflexivity | exact IH].
Qed.

Lemma dict_mem_set k v d : dict_mem k (dict_set k v d) = true.
Proof. unfold dict_mem. now rewrite dict_get_set_eq. Qed.


Lemma dict_get_None_keys k d : dict_get k d = None <-> ~ In k (dict_keys d).
Proof.
  induction d as [|[k' v'] d IH]; simpl.
  - tauto.
  - destruct (String.eqb_spec k' k) as [->|Hk].
    + split; [discriminate | intros H; exfalso; apply H; now left].
    + rewrite IH. split; [intros H [E|E]; [congruence | tauto] | tauto].
Qed.

Lemma dict_get_In k v d : dict_wf d -> In (k, v) d -> dict_get k d = Some v.
Proof.
  unfold dict_wf. induction d as [|[k' v'] d IH]; simpl; [tauto|].
  intros Hwf. apply NoDup_cons in Hwf as [Hk' Hwf].
  intros [[= -> ->]|Hin].
  - now rewrite String.eqb_refl.
  - destruct (String.eqb_spec k' k) as [->|Hk]; [|now apply IH].
    exfalso. apply Hk'. apply list_elem_of_In.
    change k with (fst (k, v)). now apply in_map.
Qed.
End DictLemmas.

(** ** CredentialStore *)

Lemma credentials_ok_file (w : world) :
  credentials_ok w ->
  files w !! users_file = None /\ credentials w = []
  \/ files w !! users_file = Some (JObj (credentials w)).
Proof.
  unfold credentials_ok, credentials.
  destruct (files w !! users_file) as [[| | | | | |o]|]; try tauto.
Qed.

Lemma save_user_credentials_run (u d : string) (w : world) :
  credentials_ok w ->
  save_user_credentials u d w = Returns tt (credited u d w).
Proof.
  intros Hok. unfold save_user_credentials, credited. run.
  destruct (credentials_ok_file w Hok) as [[Hf Hc]|Hf]; rewrite Hf; run.
  - now rewrite Hc.
  - rewrite Hf. reflexivity.
Qed.

Lemma credentials_credited (u d : string) (w : world) :
  credentials (credited u d w) = dict_set u (JStr d) (credentials w).
Proof.
  unfold credited, credentials at 1. run. now rewrite lookup_insert_eq.
Qed.

Lemma credentials_ok_credited (u d : string) (w : world) :
  credentials_ok (credited u d w).
Proof. unfold credited, credentials_ok. run. now rewrite lookup_insert_eq. Qed.

Lemma check_credentials_run (u h : string) (w : world) :
  credentials_ok w ->
  check_credentials u h w
  = Returns (match stored_digest w u with
             | Some v => json_eq_str v h
             | None => false
             end) w.
Proof.
  intros Hok. unfold check_credentials, stored_digest. run.
  destruct (credentials_ok_file w Hok) as [[Hf Hc]|Hf]; rewrite Hf; run.
  - now rewrite Hc.
  - rewrite Hf. run. unfold dict_mem.
    destruct (dict_get u (credentials w)); reflexivity.
Qed.

(** ** The digest *)

(** The test vectors of FIPS 180-4 and a message of two blocks. *)
Example hash_password_abc :
  hash_password "abc"
  = "ba7816bf8f01cfea414140de5dae2223b00361a396177a9cb410ff61f20015ad"%string.
Proof. vm_compute. reflexivity. Qed.

Example hash_password_empty :
  hash_password ""
  = "e3b0c44298fc1c149afbf4c8996fb92427ae41e4649b934ca495991b7852b855"%string.
Proof. vm_compute. reflexivity. Qed.

Example hash_password_two_blocks :
  hash_password "aaaaaaaaaaaaaaaaaaaaaaaaaaaaaaaaaaaaaaaaaaaaaaaaaaaaaaaaaaaaaaaaaaaaaa"
  = "6bd5e5034855a11241f0dee8fc72850ffd9955b28347a86428b5fa19119f6ad0"%string.
Proof. vm_compute. reflexivity. Qed.

(** 56 bytes: the padding spills into a second block. *)
Example hash_password_padding_boundary :
  hash_password "xxxxxxxxxxxxxxxxxxxxxxxxxxxxxxxxxxxxxxxxxxxxxxxxxxxxxxxx"
  = "04c26261370ee7541549d16dee320c723e3fd14671e66a099afe0a377c16888e"%string.
Proof. vm_compute. reflexivity. Qed.

Lemma length_hex (n : nat) (x : Z) : String.length (SHA256.hex n x) = n.
Proof.
  revert x. induction n as [|n IH]; intros x; simpl; [reflexivity|].
  rewrite length_append, IH. simpl. lia.
Qed.

Lemma length_hexdigest (s : SHA256.state) :
  String.length (SHA256.hexdigest s) = 64%nat.
Proof.
  unfold SHA256.hexdigest, SHA256.state_words. cbn [foldr].
  rewrite !length_append, !length_hex. reflexivity.
Qed.

Lemma is_hex_append (s t : string) : is_hex (s +:+ t) = is_hex s && is_hex t.
Proof.
  unfold is_hex. induction s as [|c s IH]; simpl; [reflexivity|].
  now rewrite IH, andb_assoc.
Qed.

Lemma is_hex_char_hex_digit (d : Z) : is_hex_char (SHA256.hex_digit d) = true.
Proof.
  unfold SHA256.hex_digit. generalize (Z.to_nat d). intros n.
  do 16 (destruct n as [|n]; [reflexivity|]). destruct n; reflexivity.
Qed.

Lemma is_hex_hex (n : nat) (x : Z) : is_hex (SHA256.hex n x) = true.
Proof.
  revert x. induction n as [|n IH]; intros x; simpl; [reflexivity|].
  rewrite is_hex_append, IH. unfold is_hex. simpl.
  now rewrite is_hex_char_hex_digit.
Qed.

Lemma is_hex_hexdigest (s : SHA256.state) : is_hex (SHA256.hexdigest s) = true.
Proof.
  unfold SHA256.hexdigest, SHA256.state_words. cbn [foldr].
  rewrite !is_hex_append, !is_hex_hex. reflexivity.
Qed.

Lemma json_eq_str_refl (s : string) : json_eq_str (JStr s) s = true.
Proof. apply String.eqb_refl. Qed.

Lemma json_eq_str_true (v : json) (s : string) :
  json_eq_str v s = true <-> v = JStr s.
Proof.
  destruct v; simpl; try (split; [discriminate | discriminate]).
  rewrite String.eqb_eq. split; [now intros -> | now intros [= ->]].
Qed.

(** C1. For every password [p] and username [u]: [hash_password] is a
    function of the password alone (equal passwords give equal digests), its
    value is 64 lowercase hexadecimal digits long, and right after
    [save_user_credentials u (hash_password p)] the call
    [check_credentials u (hash_password p)] returns true. The credential
    file is absent or holds an object, as in every reachable world
    ([reachable_credentials_ok]). *)
Theorem hash_save_check (p u : string) (w : world) :
  credentials_ok w ->
  (forall q, q = p -> hash_password q = hash_password p)
  /\ String.length (hash_password p) = 64%nat
  /\ is_hex (hash_password p) = true
  /\ exists w',
       save_user_credentials u (hash_password p) w = Returns tt w'
       /\ check_credentials u (hash_password p) w' = Returns true w'.
Proof.
  intros Hok. split; [now intros q ->|].
  split; [apply length_hexdigest|]. split; [apply is_hex_hexdigest|].
  exists (credited u (hash_password p) w). split.
  - now apply save_user_credentials_run.
  - rewrite check_credentials_run by apply credentials_ok_credited.
    unfold stored_digest. rewrite credentials_credited, dict_get_set_eq.
    now rewrite json_eq_str_refl.
Qed.

Lemma hash_save_check_witness :
  credentials_ok example_world
  /\ String.length (hash_password "pw") = 64%nat
  /\ exists w',
       save_user_credentials "bob" (hash_password "pw") example_world = Returns tt w'
       /\ check_credentials "bob" (hash_password "pw") w' = Returns true w'.
Proof.
  assert (Hok : credentials_ok example_world) by (vm_compute; exact I).
  destruct (hash_save_check "pw" "bob" example_world Hok) as (_ & Hlen & _ & Hrun).
  split; [exact Hok|]. split; [exact Hlen | exact Hrun].
Defined.

(** C10. Frame: [save_user_credentials u d] returns, stores [d] for [u], and
    leaves the stored digest of every other username as it was (no digest
    where there was none). The credential file is absent or holds an
    object. *)
Theorem save_user_credentials_frame (u d u' : string) (w : world) :
  credentials_ok w ->
  u' <> u ->
  exists w',
    save_user_credentials u d w = Returns tt w'
    /\ stored_digest w' u' = stored_digest w u'
    /\ stored_digest w' u = Some (JStr d).
Proof.
  intros Hok Hne. exists (credited u d w). split; [|split].
  - now apply save_user_credentials_run.
  - unfold stored_digest. rewrite credentials_credited.
    now apply dict_get_set_ne.
  - unfold stored_digest. rewrite credentials_credited.
    apply dict_get_set_eq.
Qed.

Lemma save_user_credentials_frame_witness :
  let w := credited "alice" "d1" example_world in
  credentials_ok w
  /\ exists w',
       save_user_credentials "bob" "d2" w = Returns tt w'
       /\ stored_digest w' "alice" = Some (JStr "d1")
       /\ stored_digest w' "bob" = Some (JStr "d2").
Proof.
  intros w.
  assert (Hok : credentials_ok w) by (vm_compute; exact I).
  assert (Hne : "alice"%string <> "bob"%string) by discriminate.
  destruct (save_user_credentials_frame "bob" "d2" "alice" w Hok Hne)
    as (w' & Hrun & Hframe & Hnew).
  split; [exact Hok|]. exists w'. split; [exact Hrun|].
  split; [rewrite Hframe; vm_compute; reflexivity | exact Hnew].
Defined.

(** C8. When the credential record holds no entry for the username equal
    to the digest of the password (another digest is stored, the username
    is unknown, or there is no credential file), [login_user] returns false
    and the world, the session in it included, is left as it was: a session
    that was anonymous stays anonymous, and no portfolio is loaded. *)
Theorem login_wrong_password (u p : string) (w : world) :
  credentials_ok w ->
  stored_digest w u <> Some (JStr (hash_password p)) ->
  login_user u p w = Returns false w.
Proof.
  intros Hok Hwrong. unfold login_user.
  rewrite (bind_returns _ _ _ _ _ (check_credentials_run u _ w Hok)).
  destruct (stored_digest w u) as [v|]; [|reflexivity].
  destruct (json_eq_str v (hash_password p)) eqn:E; [|reflexivity].
  apply json_eq_str_true in E. congruence.
Qed.

Lemma login_wrong_password_witness :
  let w := credited "bob" (hash_password "pw") example_world in
  credentials_ok w
  /\ stored_digest w "bob" <> Some (JStr (hash_password "wrong"))
  /\ login_user "bob" "wrong" w = Returns false w
  /\ session w = anonymous.
Proof.
  intros w.
  assert (Hok : credentials_ok w) by (vm_compute; exact I).
  assert (Hwrong : stored_digest w "bob" <> Some (JStr (hash_password "wrong")))
    by (vm_compute; discriminate).
  split; [exact Hok|]. split; [exact Hwrong|].
  split; [exact (login_wrong_password "bob" "wrong" w Hok Hwrong) | reflexivity].
Defined.

(** The three ways of a wrong password. *)
Example login_no_credential_file (u p : string) :
  login_user u p example_world = Returns false example_world.
Proof. reflexivity. Qed.

(** ** Registration *)

Lemma files_saved_ne (u : string) (H : json) (w : world) (path : string) :
  path <> portfolio_path u -> files (saved u H w) !! path = files w !! path.
Proof. intros Hne. unfold saved. cbn [files]. now apply lookup_insert_ne. Qed.

Lemma files_saved_eq (u : string) (H : json) (w : world) :
  files (saved u H w) !! portfolio_path u
  = Some (JObj [("portfolio"%string, H);
                ("last_updated"%string, JStr (clock w (ticks w)))]).
Proof. unfold saved. cbn [files]. apply lookup_insert_eq. Qed.



Lemma credentials_ok_saved (u : string) (H : json) (w : world) :
  credentials_ok w -> credentials_ok (saved u H w).
Proof.
  intros Hok. unfold credentials_ok.
  destruct (decide (users_file = portfolio_path u)) as [E|E].
  - rewrite E, files_saved_eq. exact I.
  - now rewrite files_saved_ne.
Qed.

Lemma register_user_taken (u p : string) (w : world) (doc : json) :
  files w !! portfolio_path u = Some doc ->
  register_user u p w = Returns false w.
Proof. intros Hf. unfold register_user, user_exists. run. now rewrite Hf. Qed.

Lemma register_user_fresh (u p : string) (w : world) :
  files w !! portfolio_path u = None ->
  credentials_ok w ->
  register_user u p w
  = Returns true (saved u (JObj []) (credited u (hash_password p) w)).
Proof.
  intros Hf Hok. unfold register_user, user_exists. run. rewrite Hf.
  change (match save_user_credentials u (hash_password p) w with
          | Returns _ w' =>
              match save_user_portfolio u (JObj []) w' with
              | Returns _ w'' => Returns true w''
              | Raises e w'' => Raises e w''
              end
          | Raises e w' => Raises e w'
          end = Returns true (saved u (JObj []) (credited u (hash_password p) w))).
  now rewrite save_user_credentials_run.
Qed.





(** After a save for the username [users] the credential file holds that
    user's portfolio record and no digest for [users]. *)
Lemma credentials_saved_users (H : json) (w : world) :
  credentials (saved "users" H w)
  = [("portfolio"%string, H); ("last_updated"%string, JStr (clock w (ticks w)))].
Proof.
  unfold credentials. change users_file with (portfolio_path "users").
  now rewrite files_saved_eq.
Qed.

(** C4, at the username [users]. On an empty data directory
    [register_user "users" p] returns true, but the portfolio record of
    [users] is the credential file itself: the empty portfolio written last
    replaces the credential record written first. No digest is stored for
    [users] afterwards, [check_credentials] rejects the password just
    registered, and so does [login_user]. *)
Theorem register_users_collision
  (c : nat -> string) (s : nat -> string -> response) (p : string) :
  exists w',
    register_user "users" p (fresh_world c s) = Returns true w'
    /\ stored_digest w' "users" = None
    /\ check_credentials "users" (hash_password p) w' = Returns false w'
    /\ login_user "users" p w' = Returns false w'.
Proof.
  set (w := fresh_world c s).
  assert (Hok : credentials_ok w).
  { unfold credentials_ok, w, fresh_world. cbn [files]. now rewrite lookup_empty. }
  assert (Hf : files w !! portfolio_path "users" = None) by apply lookup_empty.
  set (w' := saved "users" (JObj []) (credited "users" (hash_password p) w)).
  assert (Hok' : credentials_ok w')
    by apply credentials_ok_saved, credentials_ok_credited.
  assert (Hd : stored_digest w' "users" = None).
  { unfold stored_digest, w'. now rewrite credentials_saved_users. }
  exists w'. split; [now apply register_user_fresh|]. split; [exact Hd|].
  assert (Hc : check_credentials "users" (hash_password p) w' = Returns false w').
  { rewrite check_credentials_run by exact Hok'. now rewrite Hd. }
  split; [exact Hc|].
  unfold login_user. now rewrite (bind_returns _ _ _ _ _ Hc).
Qed.

(** ** Updating the portfolio *)


Lemma update_portfolio_run (edits : dict float) (w : world) :
  let kept := List.filter (fun kv => PrimFloat.ltb 0 (snd kv)) edits in
  let w1 := saved (ss_username (session w)) (json_of_holdings kept) w in
  update_portfolio edits w
  = Returns tt
      (World (files w1) (clock w) (S (S (ticks w))) (source w) (requests w)
             (Session (ss_authenticated (session w)) (ss_username (session w))
                      (json_of_holdings kept) (JStr (clock w (S (ticks w)))))
             (warnings w)).
Proof. reflexivity. Qed.


(** Updating with BTC at 0 and ETH at 3 keeps ETH only, in the session and
    on disk. *)
Example update_portfolio_example (w : world) :
  exists w',
    update_portfolio [("BTC"%string, 0%float); ("ETH"%string, 3%float)] w
    = Returns tt w'
    /\ ss_portfolio (session w') = JObj [("ETH"%string, JFloat 3)]
    /\ files w' !! portfolio_path (ss_username (session w))
       = Some (JObj [("portfolio"%string, JObj [("ETH"%string, JFloat 3)]);
                     ("last_updated"%string, JStr (clock w (ticks w)))]).
Proof.
  eexists. split; [apply update_portfolio_run|]. split; [reflexivity|].
  cbn [files saved]. apply lookup_insert_eq.
Qed.

(** ** Valuation *)

Lemma portfolio_for_display_keys (portfolio prices : dict float) (k : string) :
  In k (dict_keys (portfolio_for_display portfolio prices))
  <-> In k (dict_keys portfolio) /\ dict_mem k prices = true.
Proof.
  unfold dict_keys, portfolio_for_display. rewrite !in_map_iff. split.
  - intros [[k' a] [<- Hin]]. apply filter_In in Hin as [Hin Hm].
    split; [|exact Hm]. now exists (k', a).
  - intros [[[k' a] [<- Hin]] Hm]. exists (k', a). split; [reflexivity|].
    apply filter_In. now split.
Qed.

Lemma portfolio_for_display_wf (portfolio prices : dict float) :
  dict_wf portfolio -> dict_wf (portfolio_for_display portfolio prices).
Proof.
  unfold dict_wf. induction portfolio as [|[k a] d IH]; simpl; [trivial|].
  intros Hwf. apply NoDup_cons in Hwf as [Hk Hwf].
  destruct (dict_mem k prices); simpl; [|now apply IH].
  apply NoDup_cons. split; [|now apply IH].
  intros Hin. apply Hk. apply list_elem_of_In.
  apply list_elem_of_In in Hin.
  now apply (portfolio_for_display_keys d prices k) in Hin as [Hin _].
Qed.

(** The table of the code, row by row, is the valuation of the
    specification. *)
Lemma valuation_spec_display (portfolio prices : dict float) :
  valuation_spec portfolio prices
  = map (fun kv => (fst kv, PrimFloat.mul (snd kv) (get_or_zero (fst kv) prices)))
        (portfolio_for_display portfolio prices).
Proof.
  induction portfolio as [|[k a] d IH]; simpl; [reflexivity|].
  unfold dict_mem.
  destruct (dict_get k prices) as [p|] eqn:E; simpl.
  - unfold get_or_zero at 1. rewrite E. f_equal. exact IH.
  - exact IH.
Qed.

Lemma get_or_zero_held (d : dict float) (k : string) (a : float) :
  dict_wf d -> In (k, a) d -> get_or_zero k d = a.
Proof.
  intros Hwf Hin. unfold get_or_zero. now rewrite (dict_get_In k a d Hwf Hin).
Qed.

Lemma portfolio_data_values (portfolio prices : dict float) :
  dict_wf portfolio ->
  map (fun r => (row_coin r, row_value r)) (portfolio_data portfolio prices)
  = valuation_spec portfolio prices.
Proof.
  intros Hwf. rewrite valuation_spec_display.
  unfold portfolio_data, dict_keys. rewrite !map_map.
  apply map_ext_in. intros [k a] Hin. cbn [row_coin row_value fst snd].
  now rewrite (get_or_zero_held _ k a (portfolio_for_display_wf _ prices Hwf) Hin).
Qed.

(** C5. For every holdings mapping (a dictionary, so with no key twice) and
    price mapping: the total is the sum of amount times price over exactly
    the held symbols present in the prices, the rows of the table are those
    symbols with those values, and a symbol has a row exactly when it is
    held and priced. *)
Theorem total_value_spec (portfolio prices : dict float) :
  dict_wf portfolio ->
  total_value portfolio prices = py_sum (map snd (valuation_spec portfolio prices))
  /\ map (fun r => (row_coin r, row_value r)) (portfolio_data portfolio prices)
     = valuation_spec portfolio prices
  /\ (forall k, In k (map row_coin (portfolio_data portfolio prices))
                <-> In k (dict_keys portfolio) /\ dict_mem k prices = true).
Proof.
  intros Hwf. split; [|split].
  - rewrite valuation_spec_display. unfold total_value, dict_keys.
    rewrite !map_map. f_equal.
    apply map_ext_in. intros [k a] Hin. cbn [fst snd].
    now rewrite (get_or_zero_held _ k a (portfolio_for_display_wf _ prices Hwf) Hin).
  - now apply portfolio_data_values.
  - intros k. unfold portfolio_data. rewrite map_map. cbn [row_coin].
    rewrite map_id. apply portfolio_for_display_keys.
Qed.

Lemma total_value_spec_witness :
  let holdings := [("BTC"%string, 2%float); ("ETH"%string, 1%float)] in
  let prices := [("BTC"%string, 100%float)] in
  dict_wf holdings
  /\ total_value holdings prices = 200%float
  /\ map row_coin (portfolio_data holdings prices) = ["BTC"%string]
  /\ ~ In "ETH"%string (map row_coin (portfolio_data holdings prices)).
Proof.
  intros holdings prices.
  assert (Hwf : dict_wf holdings) by (apply (bool_decide_unpack _); vm_compute; exact I).
  destruct (total_value_spec holdings prices Hwf) as [Ht [Hr Hk]].
  split; [exact Hwf|]. split; [rewrite Ht; reflexivity|].
  split; [reflexivity|].
  rewrite Hk. intros [_ Hm]. discriminate Hm.
Defined.

(** ** PriceFetcher *)

(** One turn of the loop never raises: it stores the latest close, or shows
    one warning and leaves the dictionary as it is. *)
Lemma fetch_ticker_run (ticker : string) (data : dict float) (w : world) :
  exists msgs,
    fetch_ticker ticker data w
    = Returns (match source w (requests w) ticker with
               | Frame closes =>
                   match last closes with
                   | Some price => dict_set (split_head ticker) price data
                   | None => data
                   end
               | Fails _ => data
               end) (requested msgs w).
Proof.
  unfold fetch_ticker, try_except, yf_history, iloc_last_close, requested. run.
  destruct (source w (requests w) ticker) as [msg|closes]; run.
  - eexists [_]. reflexivity.
  - destruct closes as [|c closes]; run.
    + eexists [_]. reflexivity.
    + destruct (last (c :: closes)) as [price|] eqn:E; run.
      * exists []. now rewrite app_nil_r.
      * rewrite last_None in E. discriminate E.
Qed.

Lemma fetch_all_total (tickers : list string) (data : dict float) (w : world) :
  exists data' w', fetch_all tickers data w = Returns data' w'.
Proof.
  revert data w. induction tickers as [|t ts IH]; intros data w; simpl.
  - now exists data, w.
  - destruct (fetch_ticker_run t data w) as [msgs Ht].
    rewrite (bind_returns _ _ _ _ _ Ht). apply IH.
Qed.

(** X2. [get_crypto_data] always returns: whatever the symbols and whatever
    the quote source does, no exception leaves the function. *)
Lemma get_crypto_data_total (symbols : list string) (w : world) :
  exists data w', get_crypto_data symbols w = Returns data w'.
Proof. apply fetch_all_total. Qed.

Lemma split_head_ticker (symbol : string) :
  hyphen_free symbol = true -> split_head (symbol +:+ "-USD") = symbol.
Proof.
  unfold hyphen_free. induction symbol as [|c s IH]; simpl; [reflexivity|].
  destruct (Ascii.eqb c "-"); simpl.
  - discriminate.
  - intros H. now rewrite IH.
Qed.

(** The dictionary after the loop over hyphen-free, pairwise different
    symbols: a symbol keeps its entry unless its own request brought a
    close. *)
Lemma fetch_all_spec (symbols : list string) :
  Forall (fun s => hyphen_free s = true) symbols ->
  NoDup symbols ->
  forall (data : dict float) (w : world),
  exists data' w',
    fetch_all (map (fun symbol => symbol +:+ "-USD") symbols) data w
    = Returns data' w'
    /\ source w' = source w
    /\ requests w' = (requests w + length symbols)%nat
    /\ (forall k, ~ In k symbols -> dict_get k data' = dict_get k data)
    /\ (forall i s, symbols !! i = Some s ->
          dict_get s data'
          = match latest_close w (requests w + i) s with
            | Some price => Some price
            | None => dict_get s data
            end).
Proof.
  induction symbols as [|s0 rest IH]; intros Hfree Hnd data w.
  - exists data, w. simpl. repeat split; try lia. intros i s Hi. discriminate Hi.
  - apply Forall_cons in Hfree as [Hs0 Hfree]. apply NoDup_cons in Hnd as [Hnot Hnd].
    rewrite list_elem_of_In in Hnot.
    destruct (fetch_ticker_run (s0 +:+ "-USD") data w) as [msgs Ht].
    rewrite (split_head_ticker s0 Hs0) in Ht.
    set (data1 := match source w (requests w) (s0 +:+ "-USD") with
                  | Frame closes =>
                      match last closes with
                      | Some price => dict_set s0 price data
                      | None => data
                      end
                  | Fails _ => data
                  end) in Ht.
    destruct (IH Hfree Hnd data1 (requested msgs w))
      as (data' & w' & Hrun & Hsrc & Hreq & Hframe & Hval).
    exists data', w'. cbn [map fetch_all].
    rewrite (bind_returns _ _ _ _ _ Ht).
    assert (Hother : forall k, k <> s0 -> dict_get k data1 = dict_get k data).
    { intros k Hk. unfold data1.
      destruct (source w (requests w) (s0 +:+ "-USD")) as [|closes]; [reflexivity|].
      destruct (last closes); [now apply dict_get_set_ne | reflexivity]. }
    split; [exact Hrun|]. split; [exact Hsrc|].
    split; [rewrite Hreq; cbn; lia|]. split.
    + intros k Hk. rewrite Hframe by (intros Hin; apply Hk; now right).
      apply Hother. intros ->. apply Hk. now left.
    + intros [|i] s Hi.
      * injection Hi as <-. rewrite Hframe by exact Hnot.
        unfold latest_close, data1. rewrite Nat.add_0_r.
        destruct (source w (requests w) (s0 +:+ "-USD")) as [|closes]; [reflexivity|].
        destruct (last closes); [apply dict_get_set_eq | reflexivity].
      * cbn in Hi. rewrite (Hval i s Hi).
        unfold latest_close, requested. cbn [source requests].
        replace (S (requests w) + i)%nat with (requests w + S i)%nat by lia.
        destruct (source w (requests w + S i) (s +:+ "-USD")) as [|closes];
          [|destruct (last closes); [reflexivity|]];
          apply Hother; intros ->; apply Hnot;
          apply list_elem_of_In, list_elem_of_lookup; eauto.
Qed.

(** X3. For hyphen-free, pairwise different symbols the keys of the result
    are requested symbols, and the [i]-th symbol has the latest close its
    own request brought, or no entry when that request failed or had no
    data. *)
Lemma get_crypto_data_spec (symbols : list string) (w : world) :
  Forall (fun s => hyphen_free s = true) symbols ->
  NoDup symbols ->
  exists data w',
    get_crypto_data symbols w = Returns data w'
    /\ (forall k, In k (dict_keys data) -> In k symbols)
    /\ (forall i s, symbols !! i = Some s ->
          dict_get s data = latest_close w (requests w + i) s).
Proof.
  intros Hfree Hnd.
  destruct (fetch_all_spec symbols Hfree Hnd [] w)
    as (data & w' & Hrun & _ & _ & Hframe & Hval).
  exists data, w'. split; [exact Hrun|]. split.
  - intros k Hk. destruct (in_dec String.string_dec k symbols) as [Hin|Hout]; [exact Hin|].
    exfalso. apply (dict_get_None_keys k data); [|exact Hk].
    now rewrite Hframe.
  - intros i s Hi. rewrite (Hval i s Hi).
    now destruct (latest_close w (requests w + i) s).
Qed.

Lemma get_crypto_data_spec_witness :
  let symbols := ["BTC"%string; "ZZZNOTACOIN"%string] in
  Forall (fun s => hyphen_free s = true) symbols
  /\ NoDup symbols
  /\ exists data w',
       get_crypto_data symbols example_world = Returns data w'
       /\ dict_get "BTC" data = Some 100%float
       /\ dict_get "ZZZNOTACOIN" data = None.
Proof.
  intros symbols.
  assert (Hfree : Forall (fun s => hyphen_free s = true) symbols)
    by (repeat constructor).
  assert (Hnd : NoDup symbols) by (apply (bool_decide_unpack _); vm_compute; exact I).
  destruct (get_crypto_data_spec symbols example_world Hfree Hnd)
    as (data & w' & Hrun & _ & Hval).
  split; [exact Hfree|]. split; [exact Hnd|]. exists data, w'.
  split; [exact Hrun|]. split.
  - exact (Hval 0%nat "BTC"%string eq_refl).
  - exact (Hval 1%nat "ZZZNOTACOIN"%string eq_refl).
Defined.


(** ** The worlds the program reaches *)

Lemma store_ok_credentials_ok (w : world) : store_ok w -> credentials_ok w.
Proof.
  intros Hs. unfold credentials_ok.
  destruct (files w !! users_file) as [doc|] eqn:E; [|exact I].
  now destruct (Hs _ _ E) as [o ->].
Qed.

Lemma store_ok_insert (w : world) (path : string) (o : dict json) (fs : gmap string json) :
  store_ok w -> fs = <[path := JObj o]> (files w) ->
  forall p doc, fs !! p = Some doc -> exists o', doc = JObj o'.
Proof.
  intros Hs -> p doc. destruct (decide (path = p)) as [->|Hne].
  - rewrite lookup_insert_eq. intros [= <-]. now exists o.
  - rewrite lookup_insert_ne by exact Hne. apply Hs.
Qed.

Lemma store_ok_saved (u : string) (H : json) (w : world) :
  store_ok w -> store_ok (saved u H w).
Proof.
  intros Hs. unfold store_ok, saved. cbn [files].
  exact (store_ok_insert w (portfolio_path u) _ _ Hs eq_refl).
Qed.

Lemma store_ok_credited (u d : string) (w : world) :
  store_ok w -> store_ok (credited u d w).
Proof.
  intros Hs. unfold store_ok, credited, set_files. cbn [files].
  exact (store_ok_insert w users_file _ _ Hs eq_refl).
Qed.

Lemma load_user_portfolio_total (u : string) (w : world) :
  store_ok w -> exists r, load_user_portfolio u w = Returns r w.
Proof.
  intros Hs. unfold load_user_portfolio. run.
  destruct (files w !! portfolio_path u) as [doc|] eqn:E; run.
  - rewrite E. destruct (Hs _ _ E) as [o ->]. run. eauto.
  - eauto.
Qed.

Lemma login_user_total (u p : string) (w : world) :
  store_ok w ->
  exists b w', login_user u p w = Returns b w' /\ files w' = files w.
Proof.
  intros Hs. unfold login_user.
  rewrite (bind_returns _ _ _ _ _
             (check_credentials_run u _ w (store_ok_credentials_ok w Hs))).
  destruct (match stored_digest w u with
            | Some v => json_eq_str v (hash_password p)
            | None => false
            end); [|now exists false, w].
  run.
  set (w1 := World _ _ _ _ _ _ _).
  destruct (load_user_portfolio_total u w1 Hs) as [r Hr].
  rewrite Hr. eauto.
Qed.

Lemma register_user_total (u p : string) (w : world) :
  store_ok w ->
  exists b w', register_user u p w = Returns b w' /\ store_ok w'.
Proof.
  intros Hs. destruct (files w !! portfolio_path u) as [doc|] eqn:E.
  - exists false, w. split; [now apply (register_user_taken u p w doc) | exact Hs].
  - eexists true, _. split.
    + now apply register_user_fresh, store_ok_credentials_ok.
    + now apply store_ok_saved, store_ok_credited.
Qed.

Lemma fetch_all_files (tickers : list string) (data : dict float) (w : world) :
  exists data' w', fetch_all tickers data w = Returns data' w' /\ files w' = files w.
Proof.
  revert data w. induction tickers as [|t ts IH]; intros data w; simpl.
  - now exists data, w.
  - destruct (fetch_ticker_run t data w) as [msgs Ht].
    rewrite (bind_returns _ _ _ _ _ Ht).
    destruct (IH (match source w (requests w) t with
                  | Frame closes =>
                      match last closes with
                      | Some price => dict_set (split_head t) price data
                      | None => data
                      end
                  | Fails _ => data
                  end) (requested msgs w)) as (data' & w' & Hrun & Hf).
    now exists data', w'.
Qed.

(** From a world whose files hold objects, no action raises, and the files
    hold objects afterwards. *)
Lemma perform_store_ok (a : action) (w : world) :
  store_ok w -> exists w', perform a w = Returns tt w' /\ store_ok w'.
Proof.
  intros Hs. destruct a as [u p|u p| |edits|symbols]; unfold perform.
  - destruct (login_user_total u p w Hs) as (b & w' & Hrun & Hf).
    rewrite (bind_returns _ _ _ _ _ Hrun). exists w'. split; [reflexivity|].
    unfold store_ok. now rewrite Hf.
  - destruct (register_user_total u p w Hs) as (b & w' & Hrun & Hs').
    rewrite (bind_returns _ _ _ _ _ Hrun). now exists w'.
  - eexists. split; [reflexivity | exact Hs].
  - eexists. split; [apply update_portfolio_run|].
    unfold store_ok. cbn [files].
    apply (store_ok_saved (ss_username (session w)) _ w Hs).
  - destruct (fetch_all_files (map (fun s => s +:+ "-USD") symbols) [] w)
      as (data & w' & Hrun & Hf).
    unfold get_crypto_data. rewrite (bind_returns _ _ _ _ _ Hrun).
    exists w'. split; [reflexivity|]. unfold store_ok. now rewrite Hf.
Qed.

(** Every reachable world keeps objects in its files; in particular its
    credential file, if any, holds an object. *)
Lemma reachable_store_ok (w : world) : reachable w -> store_ok w.
Proof.
  induction 1 as [c s|a w w' _ IH Hrun|a e w w' _ IH Hrun].
  - intros path doc. unfold fresh_world. cbn [files]. now rewrite lookup_empty.
  - destruct (perform_store_ok a w IH) as (w2 & Hrun2 & Hs).
    rewrite Hrun in Hrun2. now injection Hrun2 as <-.
  - destruct (perform_store_ok a w IH) as (w2 & Hrun2 & Hs).
    rewrite Hrun in Hrun2. discriminate Hrun2.
Qed.

Lemma reachable_credentials_ok (w : world) : reachable w -> credentials_ok w.
Proof. intros H. now apply store_ok_credentials_ok, reachable_store_ok. Qed.



(** ** More on paths and the two stores *)

Lemma portfolio_path_inj (u u' : string) :
  portfolio_path u = portfolio_path u' -> u = u'.
Proof.
  unfold portfolio_path. rewrite !path_join_data_dir.
  destruct (starts_with "/" (u +:+ ".json")) eqn:E;
    destruct (starts_with "/" (u' +:+ ".json")) eqn:E'; intros H.
  - now apply (append_inj_r u u' ".json").
  - rewrite H in E. discriminate E.
  - rewrite <- H in E'. discriminate E'.
  - cbn in H. injection H as H. now apply (append_inj_r u u' ".json").
Qed.

(** What [load_user_portfolio] does, by the record on disk. *)
Lemma load_user_portfolio_run (u : string) (w : world) :
  load_user_portfolio u w
  = match files w !! portfolio_path u with
    | None => Returns (JObj [], JStr "") w
    | Some (JObj o) =>
        Returns (match dict_get "portfolio" o with Some v => v | None => JObj [] end,
                 match dict_get "last_updated" o with Some v => v | None => JStr "" end) w
    | Some _ => Raises AttributeError w
    end.
Proof.
  unfold load_user_portfolio. run.
  destruct (files w !! portfolio_path u) as [doc|] eqn:E; run; [|reflexivity].
  rewrite E. destruct doc; reflexivity.
Qed.

(** Loading reads the files only. *)
Lemma load_user_portfolio_files (u : string) (w w2 : world) (r : json * json) :
  files w2 = files w ->
  load_user_portfolio u w = Returns r w ->
  load_user_portfolio u w2 = Returns r w2.
Proof.
  intros Hf. rewrite !load_user_portfolio_run, Hf.
  destruct (files w !! portfolio_path u) as [[| | | | | |o]|]; try discriminate;
    now intros [= <-].
Qed.

Lemma login_user_match (u p : string) (w : world) :
  credentials_ok w ->
  stored_digest w u = Some (JStr (hash_password p)) ->
  login_user u p w
  = (set_authenticated true;; set_username u;;
     loaded ← load_user_portfolio u;
     set_portfolio (fst loaded);; set_last_updated (snd loaded);; mret true) w.
Proof.
  intros Hok Hd. unfold login_user.
  rewrite (bind_returns _ _ _ _ _ (check_credentials_run u _ w Hok)).
  now rewrite Hd, json_eq_str_refl.
Qed.

Lemma login_user_success (u p : string) (P T : json) (w : world) :
  credentials_ok w ->
  stored_digest w u = Some (JStr (hash_password p)) ->
  load_user_portfolio u w = Returns (P, T) w ->
  login_user u p w = Returns true (set_session (Session true u P T) w).
Proof.
  intros Hok Hd Hload. rewrite login_user_match by assumption. run.
  set (w1 := World _ _ _ _ _ _ _).
  rewrite (load_user_portfolio_files u w w1 (P, T) eq_refl Hload).
  reflexivity.
Qed.

(** X5. When the credential record holds the digest of the password for the
    username and the portfolio record loads, [login_user] returns true, the
    session is logged in as that user with the loaded portfolio and
    timestamp, [main] shows the portfolio page, and no file changes. *)
Theorem login_correct_password (u p : string) (P T : json) (w : world) :
  credentials_ok w ->
  stored_digest w u = Some (JStr (hash_password p)) ->
  load_user_portfolio u w = Returns (P, T) w ->
  exists w',
    login_user u p w = Returns true w'
    /\ session w' = Session true u P T
    /\ main_page (session w') = PortfolioPage
    /\ files w' = files w.
Proof.
  intros Hok Hd Hload. exists (set_session (Session true u P T) w).
  split; [now apply login_user_success|]. repeat split.
Qed.

Lemma login_correct_password_witness :
  let w := saved "bob" (json_of_holdings [("ETH"%string, 3%float)])
             (credited "bob" (hash_password "pw") example_world) in
  credentials_ok w
  /\ stored_digest w "bob" = Some (JStr (hash_password "pw"))
  /\ exists w',
       login_user "bob" "pw" w = Returns true w'
       /\ session w'
          = Session true "bob" (JObj [("ETH"%string, JFloat 3)])
                    (JStr "2024-01-01 00:00:00").
Proof.
  intros w.
  assert (Hok : credentials_ok w) by (vm_compute; exact I).
  assert (Hd : stored_digest w "bob" = Some (JStr (hash_password "pw")))
    by (vm_compute; reflexivity).
  assert (Hload : load_user_portfolio "bob" w
                  = Returns (JObj [("ETH"%string, JFloat 3)],
                             JStr "2024-01-01 00:00:00") w)
    by (vm_compute; reflexivity).
  destruct (login_correct_password "bob" "pw" _ _ w Hok Hd Hload)
    as (w' & Hrun & Hs & _).
  split; [exact Hok|]. split; [exact Hd|]. exists w'. now split.
Defined.

(** X6. When the password is right but the portfolio record of the user
    holds JSON that is not an object, [login_user] raises [AttributeError]
    after it has marked the session as logged in: the session is left
    authenticated as the user, with the portfolio it had before. *)
Theorem login_broken_record (u p : string) (doc : json) (w : world) :
  credentials_ok w ->
  stored_digest w u = Some (JStr (hash_password p)) ->
  files w !! portfolio_path u = Some doc ->
  (forall o, doc <> JObj o) ->
  exists w',
    login_user u p w = Raises AttributeError w'
    /\ ss_authenticated (session w') = true
    /\ ss_username (session w') = u
    /\ ss_portfolio (session w') = ss_portfolio (session w)
    /\ main_page (session w') = PortfolioPage.
Proof.
  intros Hok Hd Hf Hdoc. rewrite login_user_match by assumption. run.
  set (w1 := World _ _ _ _ _ _ _).
  rewrite (load_user_portfolio_run u w1). unfold w1. cbn [files]. rewrite Hf.
  destruct doc as [| | | | | |o]; try (eexists; repeat split; reflexivity).
  now destruct (Hdoc o).
Qed.

Lemma login_broken_record_witness :
  credentials_ok example_bad_record
  /\ stored_digest example_bad_record "bob" = Some (JStr (hash_password "pw"))
  /\ files example_bad_record !! portfolio_path "bob" = Some (JArr [])
  /\ exists w',
       login_user "bob" "pw" example_bad_record = Raises AttributeError w'
       /\ ss_authenticated (session w') = true.
Proof.
  assert (Hok : credentials_ok example_bad_record) by (vm_compute; exact I).
  assert (Hd : stored_digest example_bad_record "bob"
               = Some (JStr (hash_password "pw"))) by (vm_compute; reflexivity).
  assert (Hf : files example_bad_record !! portfolio_path "bob" = Some (JArr []))
    by (vm_compute; reflexivity).
  assert (Hdoc : forall o, JArr [] <> JObj o) by discriminate.
  destruct (login_broken_record "bob" "pw" _ example_bad_record Hok Hd Hf Hdoc)
    as (w' & Hrun & Ha & _).
  split; [exact Hok|]. split; [exact Hd|]. split; [exact Hf|].
  exists w'. now split.
Defined.

(** ** How the operations compose *)













(** ** The effects of a price fetch *)

Lemma split_head_usd (symbol : string) :
  split_head (symbol +:+ "-USD") = split_head symbol.
Proof.
  induction symbol as [|c s IH]; simpl; [reflexivity|].
  destruct (Ascii.eqb c "-"); [reflexivity | now rewrite IH].
Qed.

Lemma split_head_hyphen_free (s : string) : hyphen_free (split_head s) = true.
Proof.
  unfold hyphen_free. induction s as [|c s IH]; simpl; [reflexivity|].
  destruct (Ascii.eqb c "-") eqn:E; simpl; [reflexivity|]. now rewrite E.
Qed.

Lemma dict_keys_set {V : Type} (k k0 : string) (v : V) (d : dict V) :
  In k (dict_keys (dict_set k0 v d)) -> k = k0 \/ In k (dict_keys d).
Proof.
  induction d as [|[k' v'] d IH]; simpl.
  - intros [<-|[]]. now left.
  - destruct (String.eqb k' k0); simpl; [tauto|].
    intros [<-|H]; [right; now left|]. destruct (IH H); [now left | right; now right].
Qed.

(** One turn of the loop: one request, and one warning exactly when it
    brings no close. *)
Lemma fetch_symbol_run (symbol : string) (data : dict float) (w : world) :
  exists msgs,
    fetch_ticker (symbol +:+ "-USD") data w
    = Returns (match latest_close w (requests w) symbol with
               | Some price => dict_set (split_head symbol) price data
               | None => data
               end) (requested msgs w)
    /\ length msgs = match latest_close w (requests w) symbol with
                     | Some _ => 0%nat
                     | None => 1%nat
                     end.
Proof.
  unfold latest_close. rewrite <- split_head_usd.
  unfold fetch_ticker, try_except, yf_history, iloc_last_close, requested. run.
  destruct (source w (requests w) (symbol +:+ "-USD")) as [msg|closes]; run.
  - eexists [_]. split; reflexivity.
  - destruct closes as [|c closes]; run.
    + eexists [_]. split; reflexivity.
    + destruct (last (c :: closes)) as [price|] eqn:E; run.
      * exists []. rewrite app_nil_r. split; reflexivity.
      * rewrite last_None in E. discriminate E.
Qed.

Lemma missing_closes_source (w w1 : world) (n : nat) (symbols : list string) :
  source w1 = source w -> missing_closes w1 n symbols = missing_closes w n symbols.
Proof.
  intros Hs. revert n. induction symbols as [|s rest IH]; intros n; simpl.
  - reflexivity.
  - unfold latest_close. rewrite Hs, IH. reflexivity.
Qed.

Lemma fetch_symbols_run (symbols : list string) (data : dict float) (w : world) :
  exists data' msgs,
    fetch_all (map (fun symbol => symbol +:+ "-USD") symbols) data w
    = Returns data'
        (World (files w) (clock w) (ticks w) (source w)
               (requests w + length symbols) (session w) (warnings w ++ msgs))
    /\ length msgs = missing_closes w (requests w) symbols
    /\ forall k, In k (dict_keys data') ->
                 In k (dict_keys data) \/ In k (map split_head symbols).
Proof.
  revert data w. induction symbols as [|s rest IH]; intros data w.
  - exists data, []. cbn. rewrite app_nil_r, Nat.add_0_r.
    split; [now destruct w|]. split; [reflexivity | tauto].
  - destruct (fetch_symbol_run s data w) as (m1 & Ht & Hm1).
    cbn [map fetch_all]. rewrite (bind_returns _ _ _ _ _ Ht).
    destruct (IH (match latest_close w (requests w) s with
                  | Some price => dict_set (split_head s) price data
                  | None => data
                  end) (requested m1 w)) as (data' & m2 & Hrun & Hm2 & Hk).
    exists data', (m1 ++ m2). rewrite Hrun. unfold requested. cbn.
    split; [f_equal; f_equal; [lia | now rewrite app_assoc]|]. split.
    + rewrite length_app, Hm1, Hm2.
      rewrite (missing_closes_source w (requested m1 w)) by reflexivity.
      unfold requested. cbn [requests].
      now destruct (latest_close w (requests w) s).
    + intros k Hin. destruct (Hk k Hin) as [Hd|Hr]; [|right; now right].
      destruct (latest_close w (requests w) s); [|now left].
      apply dict_keys_set in Hd as [->|Hd]; [right; now left | now left].
Qed.

(** X12. For every list of symbols, [get_crypto_data] sends one request per
    symbol, shows one warning for each request that brings no close, and
    changes neither the files nor the session; every key of the result is
    hyphen-free and is the part before the first hyphen of a requested
    symbol. *)
Theorem get_crypto_data_effects (symbols : list string) (w : world) :
  exists data w',
    get_crypto_data symbols w = Returns data w'
    /\ files w' = files w
    /\ session w' = session w
    /\ requests w' = (requests w + length symbols)%nat
    /\ length (warnings w')
       = (length (warnings w) + missing_closes w (requests w) symbols)%nat
    /\ forall k, In k (dict_keys data) ->
         hyphen_free k = true /\ exists s, In s symbols /\ k = split_head s.
Proof.
  destruct (fetch_symbols_run symbols [] w) as (data & msgs & Hrun & Hm & Hk).
  eexists data, _. split; [exact Hrun|]. cbn.
  split; [reflexivity|]. split; [reflexivity|]. split; [reflexivity|].
  split; [now rewrite length_app, Hm|].
  intros k Hin. destruct (Hk k Hin) as [[]|Hs].
  apply in_map_iff in Hs as (s & <- & Hs).
  split; [apply split_head_hyphen_free | now exists s].
Qed.

Lemma default_coins_hyphen_free :
  Forall (fun s => hyphen_free s = true) default_coins.
Proof. repeat constructor. Qed.

Lemma default_coins_NoDup : NoDup default_coins.
Proof. apply (bool_decide_unpack _). vm_compute. exact I. Qed.

(** X13. The prices of the portfolio page: for the default coins the keys of
    the result are default coins, each coin has the latest close of its own
    request or no entry, and thirteen requests are sent. *)
Theorem default_coins_prices (w : world) :
  exists data w',
    get_crypto_data default_coins w = Returns data w'
    /\ (forall k, In k (dict_keys data) -> In k default_coins)
    /\ (forall i s, default_coins !! i = Some s ->
          dict_get s data = latest_close w (requests w + i) s)
    /\ requests w' = (requests w + 13)%nat.
Proof.
  destruct (fetch_all_spec default_coins default_coins_hyphen_free
              default_coins_NoDup [] w)
    as (data & w' & Hrun & _ & Hreq & Hframe & Hval).
  exists data, w'. split; [exact Hrun|]. split; [|split; [|exact Hreq]].
  - intros k Hk.
    destruct (in_dec String.string_dec k default_coins) as [Hin|Hout]; [exact Hin|].
    exfalso. apply (dict_get_None_keys k data); [|exact Hk].
    now rewrite Hframe.
  - intros i s Hi. rewrite (Hval i s Hi).
    now destruct (latest_close w (requests w + i) s).
Qed.

(** ** What every reachable world satisfies *)








Lemma login_user_mismatch (u p : string) (w : world) :
  credentials_ok w ->
  stored_digest w u <> Some (JStr (hash_password p)) ->
  login_user u p w = Returns false w.
Proof.
  intros Hok Hwrong. unfold login_user.
  rewrite (bind_returns _ _ _ _ _ (check_credentials_run u _ w Hok)).
  destruct (stored_digest w u) as [v|]; [|reflexivity].
  destruct (json_eq_str v (hash_password p)) eqn:E; [|reflexivity].
  apply json_eq_str_true in E. congruence.
Qed.






Lemma reachable_run_actions (actions : list action) (w : world) :
  reachable w -> reachable (run_actions actions w).
Proof.
  revert w. induction actions as [|a rest IH]; intros w Hr; [exact Hr|].
  cbn [run_actions]. apply IH.
  destruct (perform a w) as [[] w'|e w'] eqn:E; cbn [world_after].
  - exact (reachable_returns a w w' Hr E).
  - exact (reachable_raises a e w w' Hr E).
Qed.

Lemma reachable_example_session_world : reachable example_session_world.
Proof. apply reachable_run_actions, reachable_fresh. Qed.







(** ** The login page *)

(** X17. [init_session_state] gives every missing key its default and leaves
    every key that is set as it is: it is idempotent, its result has all
    four keys, and a complete session (a logged-in one included) goes
    through it unchanged. *)
Theorem init_session_state_keeps (st : session_keys) :
  key_authenticated (init_session_state st)
  = Some (match key_authenticated st with Some a => a | None => false end)
  /\ key_username (init_session_state st)
     = Some (match key_username st with Some u => u | None => ""%string end)
  /\ key_portfolio (init_session_state st)
     = Some (match key_portfolio st with Some p => p | None => JObj [] end)
  /\ key_last_updated (init_session_state st)
     = Some (match key_last_updated st with Some t => t | None => JStr "" end)
  /\ init_session_state (init_session_state st) = init_session_state st
  /\ (forall s, session_of_keys st = Some s ->
        session_of_keys (init_session_state st) = Some s).
Proof.
  destruct st as [[a|] [u|] [p|] [t|]]; cbn; repeat split;
    intros s Hs; try discriminate Hs; exact Hs.
Qed.



(** X18. The registration form writes nothing when the two passwords differ,
    or the username or the password is empty: it shows an error and the
    world is as before. *)
Theorem register_clicked_rejects (u p c : string) (w : world) :
  p <> c \/ u = ""%string \/ p = ""%string ->
  register_clicked u p c w
  = Returns (Error (if String.eqb p c then "Username and password cannot be empty"
                    else "Passwords do not match")) w.
Proof.
  intros H. unfold register_clicked.
  destruct (String.eqb_spec p c) as [->|Hpc]; cbn [negb]; [|reflexivity].
  destruct H as [H | [-> | ->]]; [congruence | reflexivity |].
  now rewrite orb_true_r.
Qed.

Lemma register_clicked_rejects_witness :
  "pw"%string <> "pv"%string
  /\ register_clicked "bob" "pw" "pv" example_world
     = Returns (Error "Passwords do not match") example_world.
Proof.
  assert (H : "pw"%string <> "pv"%string) by discriminate.
  split; [exact H|].
  exact (register_clicked_rejects "bob" "pw" "pv" example_world (or_introl H)).
Defined.




(** ** The portfolio page *)

Lemma list_mem_In (coin : string) (coins : list string) :
  list_mem coin coins = true <-> In coin coins.
Proof.
  unfold list_mem. rewrite existsb_exists. split.
  - intros (c & Hin & E). apply String.eqb_eq in E. now subst.
  - intros Hin. exists coin. split; [exact Hin | apply String.eqb_refl].
Qed.

(** X20. The coins preselected in the multiselect are never none and are all
    default coins; every held default coin is among them; when no held coin
    is a default coin they are BTC and ETH. *)
Theorem default_selection_spec (portfolio : dict float) :
  default_selection portfolio <> []
  /\ (forall coin, In coin (default_selection portfolio) -> In coin default_coins)
  /\ (forall coin, In coin (dict_keys portfolio) -> In coin default_coins ->
        In coin (default_selection portfolio))
  /\ ((forall coin, In coin (dict_keys portfolio) -> ~ In coin default_coins) ->
      default_selection portfolio = ["BTC"; "ETH"]%string).
Proof.
  unfold default_selection.
  destruct (List.filter (fun coin => list_mem coin default_coins) (dict_keys portfolio))
    as [|c held] eqn:E.
  - split; [discriminate|]. split.
    + intros coin [<-|[<-|[]]]; apply list_mem_In; reflexivity.
    + split; [|reflexivity]. intros coin Hk Hd.
      assert (Hin : In coin (List.filter (fun coin => list_mem coin default_coins)
                               (dict_keys portfolio)))
        by (apply filter_In; split; [exact Hk | now apply list_mem_In]).
      rewrite E in Hin. destruct Hin.
  - split; [discriminate|]. rewrite <- E. split; [|split].
    + intros coin Hin. apply filter_In in Hin as [_ Hm]. now apply list_mem_In.
    + intros coin Hk Hd. apply filter_In. split; [exact Hk | now apply list_mem_In].
    + intros Hnone. exfalso.
      assert (Hin : In c (List.filter (fun coin => list_mem coin default_coins)
                            (dict_keys portfolio))) by (rewrite E; now left).
      apply filter_In in Hin as [Hk Hm]. apply (Hnone c Hk). now apply list_mem_In.
Qed.









(** X22. The page shows the note that the portfolio is empty exactly when no
    held coin has a price, also when coins are held and the quote source
    brought nothing; the total is then 0. When the table is shown it has a
    row, and the charts are shown exactly when the total is strictly
    positive. *)
Theorem portfolio_view_empty_note (portfolio crypto_prices : dict float) :
  (portfolio_view portfolio crypto_prices = EmptyNote
   <-> forall coin, In coin (dict_keys portfolio) -> dict_mem coin crypto_prices = false)
  /\ (portfolio_view portfolio crypto_prices = EmptyNote ->
      total_value portfolio crypto_prices = 0%float)
  /\ (forall rows charts,
        portfolio_view portfolio crypto_prices = Table rows charts ->
        rows <> []
        /\ (charts = true
            <-> PrimFloat.ltb 0 (total_value portfolio crypto_prices) = true)).
Proof.
  unfold portfolio_view, total_value, portfolio_data.
  pose proof (portfolio_for_display_keys portfolio crypto_prices) as Hk.
  destruct (portfolio_for_display portfolio crypto_prices) as [|[k a] pfd] eqn:E.
  - split; [|split].
    + split; [|reflexivity]. intros _ coin Hin.
      destruct (dict_mem coin crypto_prices) eqn:Em; [|reflexivity].
      destruct (proj2 (Hk coin) (conj Hin Em)).
    + reflexivity.
    + discriminate.
  - split; [|split].
    + split; [discriminate|]. intros Hnone. exfalso.
      destruct (proj1 (Hk k) (or_introl eq_refl)) as [Hin Hm].
      rewrite (Hnone k Hin) in Hm. discriminate Hm.
    + discriminate.
    + intros rows charts [= <- <-]. split; [discriminate | reflexivity].
Qed.

Example portfolio_view_source_down :
  portfolio_view [("BTC"%string, 2%float); ("ETH"%string, 1%float)] [] = EmptyNote.
Proof. reflexivity. Qed.

(** ** Checking credentials, and credential files no run writes *)

(** X23. [check_credentials] returns, changes nothing, and returns true
    exactly when the credential record stores the given digest for the
    username. The credential file is absent or holds an object. *)
Theorem check_credentials_iff (u h : string) (w : world) :
  credentials_ok w ->
  exists b,
    check_credentials u h w = Returns b w
    /\ (b = true <-> stored_digest w u = Some (JStr h)).
Proof.
  intros Hok. rewrite check_credentials_run by exact Hok. eexists.
  split; [reflexivity|].
  destruct (stored_digest w u) as [v|]; [|split; discriminate].
  rewrite json_eq_str_true. split; [now intros -> | now intros [= ->]].
Qed.

Lemma check_credentials_iff_witness :
  let w := credited "bob" "d1" example_world in
  credentials_ok w
  /\ check_credentials "bob" "d1" w = Returns true w
  /\ check_credentials "bob" "d2" w = Returns false w
  /\ check_credentials "alice" "d1" w = Returns false w.
Proof.
  intros w.
  assert (Hok : credentials_ok w) by (vm_compute; exact I).
  destruct (check_credentials_iff "bob" "d1" w Hok) as (b & Hrun & Hb).
  split; [exact Hok|]. split; [|split; vm_compute; reflexivity].
  rewrite Hrun. f_equal. apply Hb. vm_compute. reflexivity.
Defined.

Lemma digest_matches_dec (stored : option json) (h : string) :
  stored = Some (JStr h) \/ stored <> Some (JStr h).
Proof.
  destruct stored as [v|]; [|right; discriminate].
  destruct (json_eq_str v h) eqn:E.
  - left. f_equal. now apply json_eq_str_true.
  - right. intros [= ->]. now rewrite json_eq_str_refl in E.
Qed.

(** X24. When every file holds an object, [login_user] returns; it returns
    true exactly when the stored digest of the username is the digest of the
    password; it never changes a file; on false the whole world is
    unchanged, on true the portfolio page is shown for that user. *)
Theorem login_user_iff (u p : string) (w : world) :
  store_ok w ->
  exists b w',
    login_user u p w = Returns b w'
    /\ (b = true <-> stored_digest w u = Some (JStr (hash_password p)))
    /\ files w' = files w
    /\ (b = false -> w' = w)
    /\ (b = true -> main_page (session w') = PortfolioPage
                    /\ ss_username (session w') = u).
Proof.
  intros Hs. pose proof (store_ok_credentials_ok w Hs) as Hok.
  destruct (digest_matches_dec (stored_digest w u) (hash_password p)) as [Hd|Hd].
  - destruct (load_user_portfolio_total u w Hs) as [[P T] Hl].
    exists true, (set_session (Session true u P T) w).
    split; [now apply login_user_success|]. repeat split; try tauto. discriminate.
  - exists false, w. split; [now apply login_user_mismatch|].
    repeat split; try tauto; discriminate.
Qed.

Lemma login_user_iff_witness :
  store_ok example_session_world
  /\ exists b w',
       login_user "alice" "secret" example_session_world = Returns b w'
       /\ b = true
       /\ ss_username (session w') = "alice"%string.
Proof.
  assert (Hs : store_ok example_session_world)
    by apply reachable_store_ok, reachable_example_session_world.
  destruct (login_user_iff "alice" "secret" example_session_world Hs)
    as (b & w' & Hrun & Hb & _ & _ & Hpage).
  assert (Htrue : b = true) by (apply Hb; vm_compute; reflexivity).
  split; [exact Hs|]. exists b, w'. split; [exact Hrun|]. split; [exact Htrue|].
  now apply Hpage.
Defined.

(** X25. When the credential file holds JSON that is not an object,
    [save_user_credentials] raises [TypeError] and writes nothing, and so
    does [register_user] for a username without portfolio record: no
    portfolio record is created. *)
Theorem credentials_not_object (u d p : string) (doc : json) (w : world) :
  files w !! users_file = Some doc ->
  (forall o, doc <> JObj o) ->
  save_user_credentials u d w = Raises TypeError w
  /\ (files w !! portfolio_path u = None ->
      register_user u p w = Raises TypeError w).
Proof.
  intros Hf Hdoc.
  assert (Hsave : forall d', save_user_credentials u d' w = Raises TypeError w).
  { intros d'. unfold save_user_credentials. run. rewrite Hf. run. rewrite Hf.
    destruct doc as [| | | | | |o]; try reflexivity. now destruct (Hdoc o). }
  split; [apply Hsave|].
  intros Hnone. unfold register_user, user_exists. run. rewrite Hnone.
  change (match save_user_credentials u (hash_password p) w with
          | Returns _ w' =>
              match save_user_portfolio u (JObj []) w' with
              | Returns _ w'' => Returns true w''
              | Raises e w'' => Raises e w''
              end
          | Raises e w' => Raises e w'
          end = Raises TypeError w).
  now rewrite Hsave.
Qed.

Lemma credentials_not_object_witness :
  files example_bad_credentials !! users_file = Some (JArr [JStr "bob"])
  /\ save_user_credentials "alice" "d1" example_bad_credentials
     = Raises TypeError example_bad_credentials
  /\ register_user "alice" "pw" example_bad_credentials
     = Raises TypeError example_bad_credentials.
Proof.
  assert (Hf : files example_bad_credentials !! users_file = Some (JArr [JStr "bob"]))
    by (vm_compute; reflexivity).
  assert (Hdoc : forall o, JArr [JStr "bob"] <> JObj o) by discriminate.
  destruct (credentials_not_object "alice" "d1" "pw" _ example_bad_credentials Hf Hdoc)
    as [Hsave Hreg].
  split; [exact Hf|]. split; [exact Hsave|].
  apply Hreg. vm_compute. reflexivity.
Defined.

(** X26. When the credential file holds a JSON list, [check_credentials] and
    [login_user] return false for a username that is not an element of the
    list and raise [TypeError] for one that is; the world is unchanged
    either way. *)
Theorem credentials_list (l : list json) (u h p : string) (w : world) :
  files w !! users_file = Some (JArr l) ->
  check_credentials u h w
  = (if existsb (fun v => json_eq_str v u) l then Raises TypeError w
     else Returns false w)
  /\ login_user u p w
     = (if existsb (fun v => json_eq_str v u) l then Raises TypeError w
        else Returns false w).
Proof.
  intros Hf.
  assert (Hc : forall h', check_credentials u h' w
               = if existsb (fun v => json_eq_str v u) l then Raises TypeError w
                 else Returns false w).
  { intros h'. unfold check_credentials. run. rewrite Hf. run. rewrite Hf. run.
    now destruct (existsb (fun v => json_eq_str v u) l). }
  split; [apply Hc|].
  unfold login_user. unfold mbind at 1, M_bind at 1. rewrite Hc.
  now destruct (existsb (fun v => json_eq_str v u) l).
Qed.

Lemma credentials_list_witness :
  files example_bad_credentials !! users_file = Some (JArr [JStr "bob"])
  /\ login_user "bob" "pw" example_bad_credentials
     = Raises TypeError example_bad_credentials
  /\ login_user "alice" "pw" example_bad_credentials
     = Returns false example_bad_credentials.
Proof.
  assert (Hf : files example_bad_credentials !! users_file = Some (JArr [JStr "bob"]))
    by (vm_compute; reflexivity).
  split; [exact Hf|]. split.
  - exact (proj2 (credentials_list _ "bob" "" "pw" example_bad_credentials Hf)).
  - exact (proj2 (credentials_list _ "alice" "" "pw" example_bad_credentials Hf)).
Defined.

(** X27. Two usernames have the same record path only when they are equal,
    and the record path of a username is the credential file only for the
    username [users]. *)
Theorem portfolio_path_collisions (u u' : string) :
  (portfolio_path u = portfolio_path u' <-> u = u')
  /\ (portfolio_path u = users_file <-> u = "users"%string).
Proof.
  split.
  - split; [apply portfolio_path_inj | now intros ->].
  - apply portfolio_path_users.
Qed.
